(** * build_api_reporter.py: a shallow embedding and its verified properties

    The program reads a YAML build configuration, checks that every
    artifact pattern matches a file, uploads the matched files to the
    Ketryx service and posts one build record per build entry.

    Everything the script obtains from outside (the file system, the
    parsed YAML document, the process environment, the HTTP service) is
    gathered in the class [World].  The script itself is embedded as
    functions in a state-and-exception monad over the trace of
    observable events (lines printed, HTTP requests posted). *)

From Stdlib Require Import String Ascii List ZArith Bool Lia DecimalString.
Import ListNotations.
Open Scope string_scope.
Open Scope Z_scope.
Open Scope list_scope.

(* ===================================================================== *)
(** ** Python values *)
(* ===================================================================== *)

(** The values [yaml.safe_load] and [response.json()] hand to the script.
    A dict keeps its insertion order (the script iterates over dicts and
    serialises them), so it is an association list with string keys.
    Other scalars (floats, timestamps) are not represented. *)
#[warnings="-register-all"]
Inductive pyval : Type :=
| PNone
| PBool (b : bool)
| PInt (n : Z)
| PStr (s : string)
| PList (l : list pyval)
| PDict (d : list (string * pyval)).

(** Exceptions, by class.  [LibraryError] stands for whatever a library
    collaborator raises ([OSError] from [open], a [requests] transport
    error, a YAML or JSON decoding error): its class name and [str()].
    All classes but [SystemExit] derive from [Exception]. *)
Inductive pyerr : Type :=
| Exception_ (msg : string)
| ValueError (msg : string)
| SystemExit (code : Z)
| KeyError (key : string)
| TypeError
| AttributeError
| UnboundLocalError (var : string)
| LibraryError (cls msg : string).

Definition result (A : Type) : Type := (pyerr + A)%type.

Definition is_Exception (e : pyerr) : bool :=
  match e with SystemExit _ => false | _ => true end.

Module Py.

(** [d.get(k)] on the association list. *)
Fixpoint dict_get {A} (d : list (string * A)) (k : string) : option A :=
  match d with
  | [] => None
  | (k', v) :: d' => if String.eqb k' k then Some v else dict_get d' k
  end.

Definition dict_has {A} (d : list (string * A)) (k : string) : bool :=
  match dict_get d k with Some _ => true | None => false end.

(** [d[k] = v]: replaces the binding of an existing key in place, appends
    a new key at the end. *)
Fixpoint dict_set {A} (d : list (string * A)) (k : string) (v : A)
  : list (string * A) :=
  match d with
  | [] => [(k, v)]
  | (k', v') :: d' =>
      if String.eqb k' k then (k, v) :: d' else (k', v') :: dict_set d' k v
  end.

(** Truth value of an object: [None], [False], zero and empty containers
    are false. *)
Definition truthy (v : pyval) : bool :=
  match v with
  | PNone => false
  | PBool b => b
  | PInt n => negb (n =? 0)
  | PStr s => negb (String.eqb s "")
  | PList l => match l with [] => false | _ => true end
  | PDict d => match d with [] => false | _ => true end
  end.

(** Truth value of what [os.getenv] returns ([None] or a string). *)
Definition truthy_opt (o : option string) : bool :=
  match o with
  | Some s => negb (String.eqb s "")
  | None => false
  end.

(** [v == s] for a string literal [s]. *)
Definition eq_str (v : pyval) (s : string) : bool :=
  match v with PStr s' => String.eqb s' s | _ => false end.

(** [needle in s] on strings. *)
Fixpoint substring_of (needle s : string) : bool :=
  if String.prefix needle s then true
  else match s with
       | EmptyString => false
       | String _ s' => substring_of needle s'
       end.

(** [k in v] for a string literal [k]: key membership on a dict, element
    membership on a list, substring test on a string, [TypeError] on a
    value that is not a container. *)
Definition contains (v : pyval) (k : string) : result bool :=
  match v with
  | PDict d => inr (dict_has d k)
  | PList l => inr (existsb (fun x => eq_str x k) l)
  | PStr s => inr (substring_of k s)
  | _ => inl TypeError
  end.

(** [v[k]] for a string literal [k]. *)
Definition getitem (v : pyval) (k : string) : result pyval :=
  match v with
  | PDict d =>
      match dict_get d k with
      | Some x => inr x
      | None => inl (KeyError k)
      end
  | _ => inl TypeError
  end.

(** [v.get(k, default)]: only dicts have the method. *)
Definition get (v : pyval) (k : string) (default : pyval) : result pyval :=
  match v with
  | PDict d =>
      match dict_get d k with
      | Some x => inr x
      | None => inr default
      end
  | _ => inl AttributeError
  end.

Fixpoint chars (s : string) : list pyval :=
  match s with
  | EmptyString => []
  | String c s' => PStr (String c EmptyString) :: chars s'
  end.

(** The items a [for] loop over [v] visits: the elements of a list, the
    keys of a dict, the characters of a string. *)
Definition iter (v : pyval) : result (list pyval) :=
  match v with
  | PList l => inr l
  | PDict d => inr (map (fun kv => PStr (fst kv)) d)
  | PStr s => inr (chars s)
  | _ => inl TypeError
  end.

(** [None] for an unset variable, the string otherwise. *)
Definition of_opt (o : option string) : pyval :=
  match o with Some s => PStr s | None => PNone end.

(** [f"{o}"] for what [os.getenv] returned. *)
Definition fmt_opt (o : option string) : string :=
  match o with Some s => s | None => "None" end.

(** [s.rstrip('/')]. *)
Fixpoint rstrip_slash (s : string) : string :=
  match s with
  | EmptyString => EmptyString
  | String c s' =>
      match rstrip_slash s' with
      | EmptyString => if Ascii.eqb c "/" then EmptyString else String c EmptyString
      | r => String c r
      end
  end.

(** [os.path.basename]: what follows the last slash. *)
Fixpoint basename (p : string) : string :=
  match p with
  | EmptyString => EmptyString
  | String c p' =>
      if Ascii.eqb c "/" then basename p'
      else if substring_of "/" p' then basename p'
      else p
  end.

End Py.

(* ===================================================================== *)
(** ** The outside world and the observable trace *)
(* ===================================================================== *)

(** What [requests.post] is called with.  [UploadReq] is the multipart
    upload of [upload_artifact]: URL, the [project] query parameter, the
    [Authorization] header, and the file part (name, local path of the
    opened file, media type).  [ReportReq] is the JSON post of
    [report_build]: URL, headers and the [json=] payload. *)
Inductive request : Type :=
| UploadReq (url : string) (project : pyval) (authorization : string)
    (filename file_path content_type : string)
| ReportReq (url : string) (headers : list (string * string))
    (data : list (string * pyval)).

(** A response object: [status_code], [text], and what [json()] gives
    (a decoding error when the body is not JSON). *)
Record response : Type := {
  status_code : Z;
  text : string;
  json : result pyval
}.

(** Observable events, oldest first: a line written by [print], and a
    call of [requests.post] with its outcome. *)
Inductive event : Type :=
| Out (line : string)
| Post (req : request) (res : result response).

(** The collaborators of the script.  The file system and the
    environment do not change during a run; the service may answer
    depending on everything that happened before.  [getenv] is the
    environment after [load_dotenv()].  [py_repr] is [str()] on lists and
    dicts and [interp_msg] the interpreter's own message text for the
    exceptions it raises itself; the script controls neither. *)
Class World : Type := {
  glob : string -> list string;
  load_yaml : string -> result pyval;
  fs_open : string -> option pyerr;
  getenv : string -> option string;
  server : list event -> request -> result response;
  py_repr : pyval -> string;
  interp_msg : pyerr -> string
}.

(** ** The monad of the script: a trace that only grows, and exceptions *)

Definition M (A : Type) : Type := list event -> list event * result A.

Definition ret {A} (a : A) : M A := fun t => (t, inr a).

Definition raise {A} (e : pyerr) : M A := fun t => (t, inl e).

Definition bind {A B} (m : M A) (k : A -> M B) : M B :=
  fun t =>
    match m t with
    | (t', inr a) => k a t'
    | (t', inl e) => (t', inl e)
    end.

Definition lift {A} (r : result A) : M A := fun t => (t, r).

Notation "x <- m ;; k" := (bind m (fun x => k))
  (at level 61, m at next level, right associativity).
Notation "m ;;; k" := (bind m (fun _ => k))
  (at level 61, right associativity).

(** [print(line)]. *)
Definition print (line : string) : M unit :=
  fun t => (t ++ [Out line], inr tt).

(** A [for] loop whose body updates the local variables [s]. *)
Fixpoint for_each {A S} (body : A -> S -> M S) (l : list A) (s : S) : M S :=
  match l with
  | [] => ret s
  | x :: l' => s' <- body x s ;; for_each body l' s'
  end.

(** [try: m  except Exception as e: handler e]; a [SystemExit] passes
    through. *)
Definition try_except {A} (m : M A) (handler : pyerr -> M A) : M A :=
  fun t =>
    match m t with
    | (t', inl e) => if is_Exception e then handler e t' else (t', inl e)
    | r => r
    end.

(** String concatenation, as an f-string or [+] builds a message. *)
Infix "+++" := String.append (right associativity, at level 60).

Definition nl : string := String (ascii_of_nat 10) EmptyString.

Section Script.

Context {W : World}.

(** [requests.post]: the call and its outcome are recorded. *)
Definition http_post (req : request) : M response :=
  fun t => (t ++ [Post req (server t req)], server t req).

(** [glob.glob(v)]: the argument must be a path string. *)
Definition py_glob (v : pyval) : result (list string) :=
  match v with
  | PStr s => inr (glob s)
  | _ => inl TypeError
  end.

(** [open(path, 'rb')]. *)
Definition open_rb (path : string) : result unit :=
  match fs_open path with
  | Some e => inl e
  | None => inr tt
  end.

(** [str(v)], as an f-string formats a value. *)
Definition py_str (v : pyval) : string :=
  match v with
  | PStr s => s
  | PNone => "None"
  | PBool true => "True"
  | PBool false => "False"
  | PInt n => NilZero.string_of_int (Z.to_int n)
  | _ => py_repr v
  end.

(** [str(e)], as the handler of [main] prints it.  Every [KeyError] of
    the script comes from a literal key, whose [repr] is the key in
    single quotes. *)
Definition err_str (e : pyerr) : string :=
  match e with
  | Exception_ msg => msg
  | ValueError msg => msg
  | LibraryError _ msg => msg
  | KeyError k => "'" +++ k +++ "'"
  | SystemExit code => NilZero.string_of_int (Z.to_int code)
  | _ => interp_msg e
  end.

(** [os.getenv(name, '')]. *)
Definition getenv_or_empty (name : string) : string :=
  match getenv name with Some s => s | None => "" end.

(* ===================================================================== *)
(** ** The script *)
(* ===================================================================== *)

(** [KetryxConfig], as [main] fills it: every field is what [os.getenv]
    returned. *)
Record KetryxConfig : Type := {
  ketryx_url : option string;
  project : option string;
  api_key : option string;
  commit_sha : option string;
  version : option string
}.

Record KetryxReporter : Type := {
  config : KetryxConfig;
  base_url : string;
  headers : list (string * string)
}.

(** [KetryxReporter.__init__]: [config.ketryx_url.rstrip('/')] needs a
    string. *)
Definition KetryxReporter_init (config : KetryxConfig) : result KetryxReporter :=
  match ketryx_url config with
  | None => inl AttributeError
  | Some url =>
      inr {| config := config;
             base_url := Py.rstrip_slash url;
             headers := [("Authorization", "Bearer " +++ Py.fmt_opt (api_key config));
                         ("Content-Type", "application/json")] |}
  end.

(** The request [upload_artifact] posts for a file. *)
Definition upload_request (self : KetryxReporter) (authorization : string)
    (file_path content_type : string) : request :=
  UploadReq (base_url self +++ "/api/v1/build-artifacts")
            (Py.of_opt (project (config self)))
            authorization
            (Py.basename file_path) file_path content_type.

(** [KetryxReporter.upload_artifact] *)
Definition upload_artifact (self : KetryxReporter)
    (file_path content_type : string) : M pyval :=
  _ <- lift (open_rb file_path) ;;
  authorization <- lift (match Py.dict_get (headers self) "Authorization" with
                         | Some a => inr a
                         | None => inl (KeyError "Authorization")
                         end) ;;
  response <- http_post (upload_request self authorization file_path content_type) ;;
  if negb (status_code response =? 200) then
    raise (Exception_ ("Failed to upload artifact: " +++ text response))
  else
    body <- lift (json response) ;;
    lift (Py.getitem body "id").

(** The entry appended for an uploaded file. *)
Definition artifact_entry (artifact_id : pyval) (tag : string) : pyval :=
  PDict [("id", artifact_id); ("type", PStr tag)].

(** The body of the inner upload loop:
<<
    artifact_id = self.upload_artifact(file_path, content_type)
    artifacts.append({'id': artifact_id, 'type': tag})
>> *)
Definition upload_one (self : KetryxReporter) (content_type tag : string)
    (file_path : string) (artifacts : list pyval) : M (list pyval) :=
  artifact_id <- upload_artifact self file_path content_type ;;
  ret (artifacts ++ [artifact_entry artifact_id tag]).

(** The loop nest that [upload_test_results] (twice) and [upload_sbom]
    share:
<<
    for pattern in paths:
        for file_path in glob.glob(pattern):
            artifact_id = self.upload_artifact(file_path, content_type)
            artifacts.append({'id': artifact_id, 'type': tag})
>> *)
Definition upload_matches (self : KetryxReporter) (content_type tag : string)
    (paths : pyval) (artifacts : list pyval) : M (list pyval) :=
  patterns <- lift (Py.iter paths) ;;
  for_each (fun pattern artifacts =>
    files <- lift (py_glob pattern) ;;
    for_each (upload_one self content_type tag) files artifacts)
    patterns artifacts.

(** [KetryxReporter.upload_test_results] *)
Definition upload_test_results (self : KetryxReporter)
    (junit_paths cucumber_paths : pyval) : M pyval :=
  artifacts <- upload_matches self "application/xml" "junit-xml" junit_paths [] ;;
  artifacts <- upload_matches self "application/json" "cucumber-json"
                 cucumber_paths artifacts ;;
  ret (PList artifacts).

(** [KetryxReporter.upload_sbom] *)
Definition upload_sbom (self : KetryxReporter) (sbom_paths sbom_type : pyval)
  : M pyval :=
  artifacts <- upload_matches self "application/json" (py_str sbom_type +++ "-json")
                 sbom_paths [] ;;
  ret (PList artifacts).

(** The [data] dict of [report_build]. *)
Definition report_data (self : KetryxReporter) (build_name artifacts : pyval)
  : list (string * pyval) :=
  let data :=
    [("project", Py.of_opt (project (config self)));
     ("buildName", build_name);
     ("artifacts", artifacts);
     ("sourceUrl", PStr (getenv_or_empty "GITHUB_SERVER_URL"));
     ("repositoryUrls",
       PList [PStr (getenv_or_empty "GITHUB_SERVER_URL" +++ "/"
                    +++ getenv_or_empty "GITHUB_REPOSITORY")])] in
  if Py.truthy_opt (version (config self)) then
    Py.dict_set data "version" (Py.of_opt (version (config self)))
  else if Py.truthy_opt (commit_sha (config self)) then
    Py.dict_set data "commitSha" (Py.of_opt (commit_sha (config self)))
  else data.

(** [KetryxReporter.report_build] *)
Definition report_build (self : KetryxReporter) (build_name artifacts : pyval)
  : M pyval :=
  response <- http_post (ReportReq (base_url self +++ "/api/v1/builds")
                                   (headers self)
                                   (report_data self build_name artifacts)) ;;
  if negb (status_code response =? 200) then
    raise (Exception_ ("Failed to report build: " +++ text response))
  else
    lift (json response).

(** One pass of [for path in paths: if not glob.glob(path): append]. *)
Definition check_paths (label : string) (paths : pyval)
    (missing_files : list string) : M (list string) :=
  items <- lift (Py.iter paths) ;;
  for_each (fun path missing_files =>
    found <- lift (py_glob path) ;;
    ret (match found with
         | [] => missing_files ++ [label +++ " file not found: " +++ py_str path]
         | _ => missing_files
         end))
    items missing_files.

(** The body of the validation loop of [process_build_config] for one
    build entry.  The [elif] reads [build['type']] a second time; the
    value is the same, so it is read once here. *)
Definition check_build (build : pyval) (missing_files : list string)
  : M (list string) :=
  type <- lift (Py.getitem build "type") ;;
  if Py.eq_str type "test-results" then
    artifacts <- lift (Py.getitem build "artifacts") ;;
    junit <- lift (Py.get artifacts "junit" (PList [])) ;;
    missing_files <- check_paths "JUnit" junit missing_files ;;
    artifacts <- lift (Py.getitem build "artifacts") ;;
    cucumber <- lift (Py.get artifacts "cucumber" (PList [])) ;;
    check_paths "Cucumber" cucumber missing_files
  else if Py.eq_str type "sbom" then
    artifacts <- lift (Py.getitem build "artifacts") ;;
    items <- lift (Py.iter artifacts) ;;
    for_each (fun artifact missing_files =>
      file <- lift (Py.getitem artifact "file") ;;
      found <- lift (py_glob file) ;;
      ret (match found with
           | [] => missing_files ++ ["SBOM file not found: " +++ py_str file]
           | _ => missing_files
           end))
      items missing_files
  else ret missing_files.

(** [process_build_config] *)
Definition process_build_config (config_file : string) : M pyval :=
  build_config <- lift (load_yaml config_file) ;;
  no_builds <- (if negb (Py.truthy build_config) then ret true
                else present <- lift (Py.contains build_config "builds") ;;
                     ret (negb present)) ;;
  if (no_builds : bool) then
    raise (ValueError "Invalid config file: missing 'builds' section")
  else
    builds <- lift (Py.getitem build_config "builds") ;;
    items <- lift (Py.iter builds) ;;
    missing_files <- for_each check_build items [] ;;
    match missing_files with
    | [] => lift (Py.getitem build_config "builds")
    | _ =>
        print (nl +++ "Missing files:") ;;;
        for_each (fun file (_ : unit) => print ("  - " +++ file)) missing_files tt ;;;
        raise (SystemExit 1)
    end.

(** The configuration [main] reads from the environment. *)
Definition env_config : KetryxConfig :=
  {| ketryx_url := getenv "KETRYX_URL";
     project := getenv "KETRYX_PROJECT";
     api_key := getenv "KETRYX_API_KEY";
     version := getenv "KETRYX_VERSION";
     commit_sha := getenv "GITHUB_SHA" |}.

(** [all([config.project, config.api_key, config.version])] *)
Definition required_env (config : KetryxConfig) : bool :=
  forallb Py.truthy_opt [project config; api_key config; version config].

(** The upload branch of the loop body of [main] for one build entry.
    The local variable [artifacts] is unbound ([None]) until its first
    assignment and keeps its value from one iteration to the next.  The
    result is the new binding of [artifacts] and whether the entry goes
    on to be reported ([false] for [continue]).  As in the validation
    loop, [build['type']] is read once. *)
Definition upload_build (reporter : KetryxReporter) (build : pyval)
    (artifacts : option pyval) : M (option pyval * bool) :=
  type <- lift (Py.getitem build "type") ;;
  if Py.eq_str type "test-results" then
    spec <- lift (Py.getitem build "artifacts") ;;
    junit <- lift (Py.get spec "junit" (PList [])) ;;
    spec <- lift (Py.getitem build "artifacts") ;;
    cucumber <- lift (Py.get spec "cucumber" (PList [])) ;;
    uploaded <- upload_test_results reporter junit cucumber ;;
    ret (Some uploaded, true)
  else if Py.eq_str type "sbom" then
    spec <- lift (Py.getitem build "artifacts") ;;
    items <- lift (Py.iter spec) ;;
    artifacts <- for_each (fun artifact (artifacts : option pyval) =>
        file <- lift (Py.getitem artifact "file") ;;
        sbom_type <- lift (Py.getitem artifact "type") ;;
        uploaded <- upload_sbom reporter (PList [file]) sbom_type ;;
        ret (Some uploaded))
      items artifacts ;;
    ret (artifacts, true)
  else
    print ("Warning: Unknown build type '" +++ py_str type +++ "'") ;;;
    ret (artifacts, false).

(** The tail of the loop body: report the build and print the
    confirmation. Reading [artifacts] while it is unbound raises
    [UnboundLocalError]. *)
Definition report_and_confirm (reporter : KetryxReporter) (build : pyval)
    (artifacts : option pyval) : M unit :=
  name <- lift (Py.getitem build "name") ;;
  uploaded <- lift (match artifacts with
                    | Some a => inr a
                    | None => inl (UnboundLocalError "artifacts")
                    end) ;;
  build_result <- report_build reporter name uploaded ;;
  name <- lift (Py.getitem build "name") ;;
  build_id <- lift (Py.get build_result "buildId" PNone) ;;
  print ("Reported " +++ py_str name +++ " to Ketryx: " +++ py_str build_id).

(** The loop body of [main]. *)
Definition main_body (reporter : KetryxReporter) (build : pyval)
    (artifacts : option pyval) : M (option pyval) :=
  step <- upload_build reporter build artifacts ;;
  if (snd step : bool) then
    report_and_confirm reporter build (fst step) ;;;
    ret (fst step)
  else ret (fst step).

(** [for build in builds: ...] of [main]. *)
Definition main_loop (reporter : KetryxReporter) (builds : list pyval)
    (artifacts : option pyval) : M (option pyval) :=
  for_each (main_body reporter) builds artifacts.

(** The [try] block of [main] with its handler. *)
Definition run_builds (reporter : KetryxReporter) (config_file : string) : M unit :=
  try_except
    (builds <- process_build_config config_file ;;
     items <- lift (Py.iter builds) ;;
     main_loop reporter items None ;;;
     ret tt)
    (fun e => print ("Error: " +++ err_str e) ;;; raise e).

(** [main], called with the path given on the command line. *)
Definition main (config_file : string) : M unit :=
  let config := env_config in
  if negb (required_env config) then
    raise (ValueError "Missing required environment variables")
  else
    reporter <- lift (KetryxReporter_init config) ;;
    run_builds reporter config_file.

(* ===================================================================== *)
(** ** Vocabulary of the properties *)
(* ===================================================================== *)

(** The requests a trace contains, oldest first. *)
Fixpoint requests_of (t : list event) : list request :=
  match t with
  | [] => []
  | Out _ :: t' => requests_of t'
  | Post req _ :: t' => req :: requests_of t'
  end.

(** The [artifacts] entries of the build records a trace contains. *)
Fixpoint reported_artifacts (t : list event) : list (option pyval) :=
  match t with
  | [] => []
  | Post (ReportReq _ _ data) _ :: t' =>
      Py.dict_get data "artifacts" :: reported_artifacts t'
  | _ :: t' => reported_artifacts t'
  end.

(** The files a trace uploads, oldest first. *)
Fixpoint uploaded_files (t : list event) : list string :=
  match t with
  | [] => []
  | Post (UploadReq _ _ _ _ file_path _) _ :: t' => file_path :: uploaded_files t'
  | _ :: t' => uploaded_files t'
  end.

(** An upload the service answered with a status other than 200, and the
    message of the exception [upload_artifact] raises for it. *)
Definition upload_rejected (ev : event) : option string :=
  match ev with
  | Post (UploadReq _ _ _ _ _ _) (inr resp) =>
      if status_code resp =? 200 then None
      else Some ("Failed to upload artifact: " +++ text resp)
  | _ => None
  end.

(** A build entry as the configuration format documents it. *)
Inductive descriptor : Type :=
| TestResults (name : string) (junit cucumber : option (list string))
| Sbom (name : string) (artifacts : list (string * string))
| OtherKind (name kind : string).

Definition str_list (l : list string) : pyval := PList (map PStr l).

(** [sbom_entry (file, type) v]: [v] is the parsed form of one entry of
    the [artifacts] sequence of an sbom build. *)
Definition sbom_entry (a : string * string) (v : pyval) : Prop :=
  exists d, v = PDict d /\
    Py.dict_get d "file" = Some (PStr (fst a)) /\
    Py.dict_get d "type" = Some (PStr (snd a)).

(** [describes d v]: the parsed YAML value [v] is the build entry [d].
    Key order and further keys are free. *)
Inductive describes : descriptor -> pyval -> Prop :=
| describes_test_results name junit cucumber d spec :
    Py.dict_get d "name" = Some (PStr name) ->
    Py.dict_get d "type" = Some (PStr "test-results") ->
    Py.dict_get d "artifacts" = Some (PDict spec) ->
    Py.dict_get spec "junit" = option_map str_list junit ->
    Py.dict_get spec "cucumber" = option_map str_list cucumber ->
    describes (TestResults name junit cucumber) (PDict d)
| describes_sbom name artifacts d items :
    Py.dict_get d "name" = Some (PStr name) ->
    Py.dict_get d "type" = Some (PStr "sbom") ->
    Py.dict_get d "artifacts" = Some (PList items) ->
    Forall2 sbom_entry artifacts items ->
    describes (Sbom name artifacts) (PDict d)
| describes_other name kind d :
    Py.dict_get d "name" = Some (PStr name) ->
    Py.dict_get d "type" = Some (PStr kind) ->
    kind <> "test-results" -> kind <> "sbom" ->
    describes (OtherKind name kind) (PDict d).

Definition opt_list {A} (o : option (list A)) : list A :=
  match o with Some l => l | None => [] end.

(** The glob patterns of a build entry, each with the label the
    validation uses for it. *)
Definition patterns_of (d : descriptor) : list (string * string) :=
  match d with
  | TestResults _ junit cucumber =>
      map (fun p => ("JUnit", p)) (opt_list junit) ++
      map (fun p => ("Cucumber", p)) (opt_list cucumber)
  | Sbom _ artifacts => map (fun a => ("SBOM", fst a)) artifacts
  | OtherKind _ _ => []
  end.

Definition no_match (pattern : string) : bool :=
  match glob pattern with [] => true | _ => false end.

(** The missing-file entries of a configuration: one per pattern without
    a match, in file order. *)
Definition missing_entries (ds : list descriptor) : list string :=
  map (fun lp => fst lp +++ " file not found: " +++ snd lp)
      (filter (fun lp => no_match (snd lp)) (flat_map patterns_of ds)).

End Script.

(** What [upload_test_results] is to upload: each matched file with its
    media type and the tag of its entry, in upload order. *)
Definition upload_item : Type := (string * string * string)%type.

Definition matched_items `{World} (content_type tag : string)
    (patterns : list string) : list upload_item :=
  flat_map (fun pattern => map (fun file => (file, content_type, tag)) (glob pattern))
           patterns.

Definition test_results_items `{World} (junit cucumber : list string)
  : list upload_item :=
  matched_items "application/xml" "junit-xml" junit ++
  matched_items "application/json" "cucumber-json" cucumber.

Definition authorization_of (self : KetryxReporter) : string :=
  match Py.dict_get (headers self) "Authorization" with
  | Some a => a
  | None => ""
  end.

Definition item_request (self : KetryxReporter) (item : upload_item) : request :=
  let '(file, content_type, _) := item in
  upload_request self (authorization_of self) file content_type.

(** [uploaded self items evs artifacts]: the events [evs] are the
    accepted uploads of [items], one request per item in order, and
    [artifacts] are their entries: the id the service answered with, and
    the item's tag. *)
Inductive uploaded (self : KetryxReporter)
  : list upload_item -> list event -> list pyval -> Prop :=
| uploaded_nil : uploaded self [] [] []
| uploaded_cons file content_type tag resp body artifact_id items evs artifacts :
    status_code resp = 200 ->
    json resp = inr body ->
    Py.getitem body "id" = inr artifact_id ->
    uploaded self items evs artifacts ->
    uploaded self ((file, content_type, tag) :: items)
      (Post (item_request self (file, content_type, tag)) (inr resp) :: evs)
      (artifact_entry artifact_id tag :: artifacts).

(** [fail_stop evs err]: a rejected upload among [evs] is the last
    event, and then [err] is the exception raised for it. *)
Fixpoint fail_stop (evs : list event) (err : option pyerr) : Prop :=
  match evs with
  | [] => True
  | ev :: rest =>
      match upload_rejected ev with
      | Some msg => rest = [] /\ err = Some (Exception_ msg)
      | None => fail_stop rest err
      end
  end.

Definition err_of {A} (r : result A) : option pyerr :=
  match r with inl e => Some e | inr _ => None end.

(** [runs m P]: from every trace, [m] only appends events, and the
    appended events and the outcome satisfy [P]. *)
Definition runs {A} (m : M A) (P : list event -> result A -> Prop) : Prop :=
  forall t, exists evs, fst (m t) = t ++ evs /\ P evs (snd (m t)).

Definition stops {A} (m : M A) : Prop :=
  runs m (fun evs r => fail_stop evs (err_of r)).

(** [quiet m]: [m] posts no request. *)
Definition quiet {A} (m : M A) : Prop :=
  runs m (fun evs _ => requests_of evs = []).

(* ===================================================================== *)
(** ** A concrete world for the examples *)
(* ===================================================================== *)

Module Demo.

Definition env : list (string * string) :=
  [("KETRYX_URL", "https://ketryx.example/");
   ("KETRYX_PROJECT", "KXPRJ1");
   ("KETRYX_API_KEY", "s3cret");
   ("KETRYX_VERSION", "1.2.0");
   ("GITHUB_SHA", "0a1b2c")].

Definition files (pattern : string) : list string :=
  match Py.dict_get
          [("out/*.xml", ["out/a.xml"; "out/b.xml"]);
           ("out/*.json", ["out/c.json"]);
           ("sbom/app.json", ["sbom/app.json"]);
           ("sbom/lib.json", ["sbom/lib.json"])] pattern with
  | Some l => l
  | None => []
  end.

Definition build (name type : string) (artifacts : pyval) : pyval :=
  PDict [("name", PStr name); ("type", PStr type); ("artifacts", artifacts)].

Definition sbom_item (file type : string) : pyval :=
  PDict [("file", PStr file); ("type", PStr type)].

Definition tests_build : pyval :=
  build "ci-build" "test-results"
    (PDict [("junit", str_list ["out/*.xml"]); ("cucumber", str_list ["out/*.json"])]).

Definition sbom_build : pyval :=
  build "sbom-build" "sbom"
    (PList [sbom_item "sbom/app.json" "cyclonedx"; sbom_item "sbom/lib.json" "spdx"]).

Definition empty_sbom_build : pyval := build "sbom-build" "sbom" (PList []).

Definition docs_build : pyval := PDict [("name", PStr "docs"); ("type", PStr "docs")].

Definition broken_tests_build : pyval :=
  build "ci-build" "test-results"
    (PDict [("junit", str_list ["out/*.xml"; "gone/*.xml"])]).

Definition broken_sbom_build : pyval :=
  build "sbom-build" "sbom" (PList [sbom_item "gone.json" "spdx"]).

Definition document (builds : list pyval) : pyval := PDict [("builds", PList builds)].

Definition documents : list (string * pyval) :=
  [("tests.yml", document [tests_build]);
   ("sbom.yml", document [sbom_build]);
   ("empty-sbom.yml", document [empty_sbom_build]);
   ("unknown.yml", document [docs_build; tests_build]);
   ("missing.yml", document [broken_tests_build; broken_sbom_build]);
   ("empty.yml", PNone);
   ("other.yml", PDict [("version", PInt 1)])].

Definition yaml (path : string) : result pyval :=
  match Py.dict_get documents path with
  | Some v => inr v
  | None => inl (LibraryError "FileNotFoundError" "No such file or directory")
  end.

Definition ok (body : pyval) : response :=
  {| status_code := 200; text := "OK"; json := inr body |}.

(** A service that accepts everything: an upload gets the id
    ["art-" + filename], a build record the id ["build-7"]. *)
Definition accepting (t : list event) (req : request) : result response :=
  match req with
  | UploadReq _ _ _ filename _ _ => inr (ok (PDict [("id", PStr ("art-" +++ filename))]))
  | ReportReq _ _ _ => inr (ok (PDict [("buildId", PStr "build-7")]))
  end.

(** A service that refuses the upload of [b.xml]. *)
Definition refusing (t : list event) (req : request) : result response :=
  match req with
  | UploadReq _ _ _ "b.xml" _ _ =>
      inr {| status_code := 413; text := "payload too large";
             json := inl (LibraryError "JSONDecodeError" "Expecting value") |}
  | _ => accepting t req
  end.

Definition world : World :=
  {| glob := files;
     load_yaml := yaml;
     fs_open := fun _ => None;
     getenv := Py.dict_get env;
     server := accepting;
     py_repr := fun _ => "<object>";
     interp_msg := fun _ => "<interpreter message>" |}.

Definition refusing_world : World :=
  {| glob := files;
     load_yaml := yaml;
     fs_open := fun _ => None;
     getenv := Py.dict_get env;
     server := refusing;
     py_repr := fun _ => "<object>";
     interp_msg := fun _ => "<interpreter message>" |}.

(** The same world with [KETRYX_VERSION] set to the empty string. *)
Definition blank_version_world : World :=
  {| glob := files;
     load_yaml := yaml;
     fs_open := fun _ => None;
     getenv := Py.dict_get (Py.dict_set env "KETRYX_VERSION" "");
     server := accepting;
     py_repr := fun _ => "<object>";
     interp_msg := fun _ => "<interpreter message>" |}.

Definition reporter : KetryxReporter :=
  {| config := @env_config world;
     base_url := "https://ketryx.example";
     headers := [("Authorization", "Bearer s3cret");
                 ("Content-Type", "application/json")] |}.

(** A reporter whose configured version is the empty string. *)
Definition blank_version_reporter : KetryxReporter :=
  {| config := @env_config blank_version_world;
     base_url := "https://ketryx.example";
     headers := [("Authorization", "Bearer s3cret");
                 ("Content-Type", "application/json")] |}.

(** The build entries of [missing.yml], as the format reads them. *)
Definition missing_yml : list descriptor :=
  [TestResults "ci-build" (Some ["out/*.xml"; "gone/*.xml"]) None;
   Sbom "sbom-build" [("gone.json", "spdx")]].

End Demo.

(* ===================================================================== *)
(** ** Vocabulary of the further properties *)
(* ===================================================================== *)

(** A run of [k] slashes. *)
Fixpoint slashes (k : nat) : string :=
  match k with
  | O => EmptyString
  | S k' => String "/" (slashes k')
  end.

Fixpoint ends_with_slash (s : string) : bool :=
  match s with
  | EmptyString => false
  | String c s' =>
      match s' with
      | EmptyString => Ascii.eqb c "/"
      | _ => ends_with_slash s'
      end
  end.

(** A request of either kind that the service answered with a status
    other than 200, and the message of the exception raised for it. *)
Definition post_rejected (ev : event) : option string :=
  match ev with
  | Post (UploadReq _ _ _ _ _ _) (inr resp) =>
      if status_code resp =? 200 then None
      else Some ("Failed to upload artifact: " +++ text resp)
  | Post (ReportReq _ _ _) (inr resp) =>
      if status_code resp =? 200 then None
      else Some ("Failed to report build: " +++ text resp)
  | _ => None
  end.

(** [halts_after evs err]: a rejected request among [evs] is the last
    event, and then [err] is the exception raised for it. *)
Fixpoint halts_after (evs : list event) (err : option pyerr) : Prop :=
  match evs with
  | [] => True
  | ev :: rest =>
      match post_rejected ev with
      | Some msg => rest = [] /\ err = Some (Exception_ msg)
      | None => halts_after rest err
      end
  end.

Definition halting {A} (m : M A) : Prop :=
  runs m (fun evs r => halts_after evs (err_of r)).

(** [emits Q m]: every event [m] appends satisfies [Q]. *)
Definition emits {A} (Q : event -> Prop) (m : M A) : Prop :=
  runs m (fun evs _ => Forall Q evs).

(** The number of build records a trace posts. *)
Fixpoint count_reports (t : list event) : nat :=
  match t with
  | [] => O
  | Post (ReportReq _ _ _) _ :: t' => S (count_reports t')
  | _ :: t' => count_reports t'
  end.

(** [upload_of self ok_file ok_type ev]: if [ev] is an upload, it is
    one of [self]: posted to its artifact endpoint with its project and
    its [Authorization] header, for a file [ok_file] accepts, named by
    its base name, with a media type [ok_type] accepts.  It is not a
    build record. *)
Definition upload_of (self : KetryxReporter) (ok_file ok_type : string -> Prop)
    (ev : event) : Prop :=
  match ev with
  | Out _ => True
  | Post (UploadReq url proj auth filename file_path content_type) _ =>
      url = base_url self +++ "/api/v1/build-artifacts" /\
      proj = Py.of_opt (project (config self)) /\
      Py.dict_get (headers self) "Authorization" = Some auth /\
      filename = Py.basename file_path /\
      ok_file file_path /\ ok_type content_type
  | Post (ReportReq _ _ _) _ => False
  end.

(** A file some glob pattern matches. *)
Definition matched `{World} (file : string) : Prop :=
  exists pattern, In file (glob pattern).

(** The media types of the script's uploads. *)
Definition xml_or_json (content_type : string) : Prop :=
  content_type = "application/xml" \/ content_type = "application/json".

(** [addressed self ev]: a request in [ev] is one of [self]: an upload
    of a file some glob pattern matches, as XML or JSON, or a build
    record posted to the builds endpoint with the reporter's headers and
    project. *)
Definition addressed `{World} (self : KetryxReporter) (ev : event) : Prop :=
  match ev with
  | Post (ReportReq url hdrs data) _ =>
      url = base_url self +++ "/api/v1/builds" /\
      hdrs = headers self /\
      Py.dict_get data "project" = Some (Py.of_opt (project (config self)))
  | _ => upload_of self matched xml_or_json ev
  end.

(** The uploads of an sbom build: for each entry in order, the files its
    pattern matches, as JSON, tagged with the entry's type. *)
Definition sbom_items `{World} (entries : list (string * string))
  : list upload_item :=
  flat_map (fun a => matched_items "application/json" (snd a +++ "-json") [fst a])
           entries.

(** A world in which every file opens and the service accepts every
    request: an upload is answered 200 with a JSON body that has an
    [id], a build record 200 with a JSON object. *)
Definition all_readable `{World} : Prop := forall path, fs_open path = None.

Definition accepts_uploads `{World} : Prop :=
  forall t url proj auth filename file_path content_type,
  exists resp body artifact_id,
    server t (UploadReq url proj auth filename file_path content_type) = inr resp /\
    status_code resp = 200 /\ json resp = inr body /\
    Py.getitem body "id" = inr artifact_id.

Definition accepts_reports `{World} : Prop :=
  forall t url hdrs data,
  exists resp body,
    server t (ReportReq url hdrs data) = inr resp /\
    status_code resp = 200 /\ json resp = inr (PDict body).

Definition no_sbom (d : descriptor) : Prop :=
  match d with Sbom _ _ => False | _ => True end.

(** [entry_done reporter d evs]: [evs] is the complete processing of
    the build entry [d]: for test results, the accepted uploads of its
    junit and then its cucumber matches, the build record of its name
    carrying exactly their entries, and the confirmation line; for an
    entry of another kind, the warning line. *)
Inductive entry_done `{World} (reporter : KetryxReporter)
  : descriptor -> list event -> Prop :=
| done_test_results name junit cucumber evs artifacts resp body :
    uploaded reporter (test_results_items (opt_list junit) (opt_list cucumber))
             evs artifacts ->
    status_code resp = 200 ->
    json resp = inr (PDict body) ->
    entry_done reporter (TestResults name junit cucumber)
      (evs ++
       [Post (ReportReq (base_url reporter +++ "/api/v1/builds") (headers reporter)
                (report_data reporter (PStr name) (PList artifacts)))
             (inr resp);
        Out ("Reported " +++ name +++ " to Ketryx: " +++
             py_str (match Py.dict_get body "buildId" with
                     | Some build_id => build_id
                     | None => PNone
                     end))])
| done_other name kind :
    entry_done reporter (OtherKind name kind)
      [Out ("Warning: Unknown build type '" +++ kind +++ "'")].

(** [run_done reporter ds evs]: [evs] is the processing of the entries
    [ds] one after the other, in order. *)
Inductive run_done `{World} (reporter : KetryxReporter)
  : list descriptor -> list event -> Prop :=
| run_done_nil : run_done reporter [] []
| run_done_cons d ds evs1 evs2 :
    entry_done reporter d evs1 ->
    run_done reporter ds evs2 ->
    run_done reporter (d :: ds) (evs1 ++ evs2).

(** ** Further concrete worlds *)

Module Cases.

(** A test-results entry without a name. *)
Definition nameless_build : pyval :=
  PDict [("type", PStr "test-results");
         ("artifacts", PDict [("junit", str_list ["out/*.xml"])])].

(** An entry without a type. *)
Definition typeless_build : pyval := PDict [("name", PStr "orphan")].

Definition documents : list (string * pyval) :=
  [("nameless.yml", Demo.document [nameless_build]);
   ("typeless.yml", Demo.document [Demo.broken_tests_build; typeless_build])].

Definition yaml (path : string) : result pyval :=
  match Py.dict_get documents path with
  | Some v => inr v
  | None => Demo.yaml path
  end.

(** The demo world with the further documents. *)
Definition world : World :=
  {| glob := Demo.files;
     load_yaml := yaml;
     fs_open := fun _ => None;
     getenv := Py.dict_get Demo.env;
     server := Demo.accepting;
     py_repr := fun _ => "<object>";
     interp_msg := fun _ => "<interpreter message>" |}.

(** The demo environment without [KETRYX_URL]. *)
Definition no_url_world : World :=
  {| glob := Demo.files;
     load_yaml := Demo.yaml;
     fs_open := fun _ => None;
     getenv := Py.dict_get (tl Demo.env);
     server := Demo.accepting;
     py_repr := fun _ => "<object>";
     interp_msg := fun _ => "<interpreter message>" |}.

(** A world in which [out/b.xml] cannot be opened. *)
Definition locked_world : World :=
  {| glob := Demo.files;
     load_yaml := Demo.yaml;
     fs_open := fun path =>
       if String.eqb path "out/b.xml"
       then Some (LibraryError "PermissionError" "Permission denied")
       else None;
     getenv := Py.dict_get Demo.env;
     server := Demo.accepting;
     py_repr := fun _ => "<object>";
     interp_msg := fun _ => "<interpreter message>" |}.

(** A service that accepts uploads with an empty JSON object, and build
    records with a JSON list. *)
Definition terse (t : list event) (req : request) : result response :=
  match req with
  | UploadReq _ _ _ _ _ _ => inr (Demo.ok (PDict []))
  | ReportReq _ _ _ => inr (Demo.ok (PList []))
  end.

Definition terse_world : World :=
  {| glob := Demo.files;
     load_yaml := Demo.yaml;
     fs_open := fun _ => None;
     getenv := Py.dict_get Demo.env;
     server := terse;
     py_repr := fun _ => "<object>";
     interp_msg := fun _ => "<interpreter message>" |}.

(** A service that accepts uploads and refuses build records. *)
Definition no_builds (t : list event) (req : request) : result response :=
  match req with
  | ReportReq _ _ _ =>
      inr {| status_code := 500; text := "internal error";
             json := inl (LibraryError "JSONDecodeError" "Expecting value") |}
  | _ => Demo.accepting t req
  end.

Definition no_builds_world : World :=
  {| glob := Demo.files;
     load_yaml := Demo.yaml;
     fs_open := fun _ => None;
     getenv := Py.dict_get Demo.env;
     server := no_builds;
     py_repr := fun _ => "<object>";
     interp_msg := fun _ => "<interpreter message>" |}.

(** The demo environment inside a GitHub workflow. *)
Definition ci_world : World :=
  {| glob := Demo.files;
     load_yaml := Demo.yaml;
     fs_open := fun _ => None;
     getenv := Py.dict_get (("GITHUB_SERVER_URL", "https://github.com")
                            :: ("GITHUB_REPOSITORY", "acme/app") :: Demo.env);
     server := Demo.accepting;
     py_repr := fun _ => "<object>";
     interp_msg := fun _ => "<interpreter message>" |}.

End Cases.

(* ===================================================================== *)
(** * Properties *)
(* ===================================================================== *)

Arguments String.append : simpl never.

(** ** Sanity checks of the Python primitives *)

Example rstrip_slash_ex :
  Py.rstrip_slash "https://k.example//" = "https://k.example".
Proof. reflexivity. Qed.

Example basename_ex :
  Py.basename "out/sub/a.xml" = "a.xml" /\ Py.basename "a/" = "".
Proof. split; reflexivity. Qed.

Example py_str_ex :
  @py_str Demo.world (PInt (-12)) = "-12" /\ @py_str Demo.world (PInt 0) = "0".
Proof. split; reflexivity. Qed.

Example reporter_init_ex :
  KetryxReporter_init (@env_config Demo.world) = inr Demo.reporter.
Proof. reflexivity. Qed.

(** The end-to-end example of the specification: one build with one
    junit pattern. *)
Example main_tests_ex :
  let t := fst (@main Demo.world "tests.yml" []) in
  snd (@main Demo.world "tests.yml" []) = inr tt /\
  uploaded_files t = ["out/a.xml"; "out/b.xml"; "out/c.json"] /\
  reported_artifacts t =
    [Some (PList [artifact_entry (PStr "art-a.xml") "junit-xml";
                  artifact_entry (PStr "art-b.xml") "junit-xml";
                  artifact_entry (PStr "art-c.json") "cucumber-json"])] /\
  last t (Out "") = Out "Reported ci-build to Ketryx: build-7".
Proof. vm_compute. repeat split; reflexivity. Qed.

(** [upload_test_results] alone, on the same patterns. *)
Example upload_test_results_ex :
  snd (@upload_test_results Demo.world Demo.reporter
         (str_list ["out/*.xml"]) (str_list ["out/*.json"]) []) =
  inr (PList [artifact_entry (PStr "art-a.xml") "junit-xml";
              artifact_entry (PStr "art-b.xml") "junit-xml";
              artifact_entry (PStr "art-c.json") "cucumber-json"]).
Proof. reflexivity. Qed.

(** ** The monad and its loops *)

Section Laws.

Context {W : World}.

Lemma bind_ok {A B} (m : M A) (k : A -> M B) t t' a :
  m t = (t', inr a) -> bind m k t = k a t'.
Proof. unfold bind. now intros ->. Qed.

Lemma bind_err {A B} (m : M A) (k : A -> M B) t t' e :
  m t = (t', inl e) -> bind m k t = (t', inl e).
Proof. unfold bind. now intros ->. Qed.

Lemma bind_lift_ok {A B} (r : result A) (k : A -> M B) a t :
  r = inr a -> bind (lift r) k t = k a t.
Proof. now intros ->. Qed.

Lemma bind_lift_err {A B} (r : result A) (k : A -> M B) e t :
  r = inl e -> bind (lift r) k t = (t, inl e).
Proof. now intros ->. Qed.

Lemma for_each_app {A S} (body : A -> S -> M S) l1 l2 s t :
  for_each body (l1 ++ l2) s t = bind (for_each body l1 s) (for_each body l2) t.
Proof.
  revert s t. induction l1 as [|x l1 IH]; intros s t; simpl.
  - reflexivity.
  - unfold bind in *. destruct (body x s t) as [t' [e|s']].
    + reflexivity.
    + apply IH.
Qed.

(** A loop nest over [g x] for each [x] is one loop over the
    concatenation. *)
Lemma for_each_flat_map {A B S} (g : A -> list B) (body : B -> S -> M S) l s t :
  for_each (fun x s => for_each body (g x) s) l s t =
  for_each body (flat_map g l) s t.
Proof.
  revert s t. induction l as [|x l IH]; intros s t; simpl.
  - reflexivity.
  - rewrite for_each_app. unfold bind.
    destruct (for_each body (g x) s t) as [t' [e|s']]; [reflexivity | apply IH].
Qed.

(** A loop whose body only prints. *)
Lemma for_each_print (f : string -> string) l t :
  for_each (fun x (_ : unit) => print (f x)) l tt t = (t ++ map (fun x => Out (f x)) l, inr tt).
Proof.
  revert t. induction l as [|x l IH]; intros t; simpl.
  - unfold ret. now rewrite app_nil_r.
  - unfold bind, print. rewrite IH. now rewrite <- app_assoc.
Qed.

Lemma requests_of_app t1 t2 :
  requests_of (t1 ++ t2) = requests_of t1 ++ requests_of t2.
Proof.
  induction t1 as [|[line|req res] t1 IH]; simpl; [reflexivity | assumption |].
  now rewrite IH.
Qed.

Lemma requests_of_outs (lines : list string) (f : string -> string) :
  requests_of (map (fun x => Out (f x)) lines) = [].
Proof. induction lines; simpl; auto. Qed.

(** *** Dict lookups after an assignment *)

Lemma dict_get_set_same {A} (d : list (string * A)) k v :
  Py.dict_get (Py.dict_set d k v) k = Some v.
Proof.
  induction d as [|[k' v'] d IH]; simpl.
  - now rewrite String.eqb_refl.
  - destruct (String.eqb k' k) eqn:E; simpl.
    + now rewrite String.eqb_refl.
    + now rewrite E.
Qed.

Lemma dict_get_set_other {A} (d : list (string * A)) k k' v :
  k <> k' -> Py.dict_get (Py.dict_set d k v) k' = Py.dict_get d k'.
Proof.
  intros Hne. induction d as [|[k0 v0] d IH]; simpl.
  - destruct (String.eqb_spec k k'); [contradiction | reflexivity].
  - destruct (String.eqb_spec k0 k) as [->|Hk]; simpl.
    + destruct (String.eqb_spec k k'); [contradiction | reflexivity].
    + now rewrite IH.
Qed.

End Laws.

(** ** The build record *)

Section Report.

Context {W : World}.

(** [report_build] posts exactly one request, whose payload is
    [report_data]; it returns the decoded body of a 200 response and
    raises an exception carrying the body text otherwise. *)
Lemma report_build_run self build_name artifacts t :
  let req := ReportReq (base_url self +++ "/api/v1/builds") (headers self)
               (report_data self build_name artifacts) in
  report_build self build_name artifacts t =
  (t ++ [Post req (server t req)],
   match server t req with
   | inl e => inl e
   | inr resp =>
       if status_code resp =? 200 then json resp
       else inl (Exception_ ("Failed to report build: " +++ text resp))
   end).
Proof.
  unfold report_build, bind, http_post. simpl.
  destruct (server t _) as [e|resp]; [reflexivity|].
  now destruct (status_code resp =? 200).
Qed.

(** C3 (as amended): the payload of the build record holds [version]
    exactly when the configured version is a non-empty string, and then
    no [commitSha]; it holds [commitSha] exactly when the version is
    unset or empty and the commit SHA is a non-empty string; it holds
    neither when both are unset or empty.  This payload is what
    [report_build] posts. *)
Theorem report_payload_version_or_commit (self : KetryxReporter)
    (build_name artifacts : pyval) (t : list event) :
  let c := config self in
  let data := report_data self build_name artifacts in
  Py.dict_get data "version" =
    (if Py.truthy_opt (version c) then Some (Py.of_opt (version c)) else None) /\
  Py.dict_get data "commitSha" =
    (if Py.truthy_opt (version c) then None
     else if Py.truthy_opt (commit_sha c) then Some (Py.of_opt (commit_sha c))
     else None) /\
  requests_of (fst (report_build self build_name artifacts t)) =
    requests_of t ++
    [ReportReq (base_url self +++ "/api/v1/builds") (headers self) data].
Proof.
  cbv zeta. split; [| split].
  - unfold report_data.
    destruct (Py.truthy_opt (version (config self)));
      [| destruct (Py.truthy_opt (commit_sha (config self)))]; reflexivity.
  - unfold report_data.
    destruct (Py.truthy_opt (version (config self)));
      [| destruct (Py.truthy_opt (commit_sha (config self)))]; reflexivity.
  - rewrite report_build_run. simpl. now rewrite requests_of_app.
Qed.

(** C9 (as amended): with [GITHUB_SERVER_URL] and [GITHUB_REPOSITORY]
    both unset, the build record is still built and posted (one request,
    whatever the configuration and the artifacts), its source URL is the
    empty string and its single repository URL is ["/"]; the call
    returns the body of the service's answer when that is a 200. *)
Theorem report_without_ci_env (self : KetryxReporter)
    (build_name artifacts : pyval) (t : list event) :
  getenv "GITHUB_SERVER_URL" = None ->
  getenv "GITHUB_REPOSITORY" = None ->
  let data := report_data self build_name artifacts in
  let req := ReportReq (base_url self +++ "/api/v1/builds") (headers self) data in
  Py.dict_get data "sourceUrl" = Some (PStr "") /\
  Py.dict_get data "repositoryUrls" = Some (PList [PStr "/"]) /\
  fst (report_build self build_name artifacts t) = t ++ [Post req (server t req)] /\
  (forall resp, server t req = inr resp -> status_code resp = 200 ->
     snd (report_build self build_name artifacts t) = json resp).
Proof.
  intros Hurl Hrepo. cbv zeta.
  assert (Hdata : forall k, k <> "version" -> k <> "commitSha" ->
            Py.dict_get (report_data self build_name artifacts) k =
            Py.dict_get
              [("project", Py.of_opt (project (config self)));
               ("buildName", build_name); ("artifacts", artifacts);
               ("sourceUrl", PStr ""); ("repositoryUrls", PList [PStr "/"])] k).
  { intros k Hv Hc. unfold report_data, getenv_or_empty. rewrite Hurl, Hrepo.
    destruct (Py.truthy_opt (version (config self)));
      [| destruct (Py.truthy_opt (commit_sha (config self)))];
      try rewrite dict_get_set_other by congruence; reflexivity. }
  repeat split.
  - rewrite Hdata by discriminate. reflexivity.
  - rewrite Hdata by discriminate. reflexivity.
  - now rewrite report_build_run.
  - intros resp Hresp Hok. rewrite report_build_run. simpl. rewrite Hresp.
    apply Z.eqb_eq in Hok. now rewrite Hok.
Qed.

End Report.

(** ** Startup and loading *)

Section Startup.

Context {W : World}.

Lemma required_env_spec :
  required_env env_config =
  Py.truthy_opt (getenv "KETRYX_PROJECT") &&
  Py.truthy_opt (getenv "KETRYX_API_KEY") &&
  Py.truthy_opt (getenv "KETRYX_VERSION").
Proof.
  unfold required_env, env_config. simpl.
  now rewrite andb_true_r, andb_assoc.
Qed.

Lemma main_env_rejected config_file t :
  required_env env_config = false ->
  main config_file t = (t, inl (ValueError "Missing required environment variables")).
Proof. unfold main. now intros ->. Qed.

Lemma main_env_accepted config_file t :
  required_env env_config = true ->
  main config_file t =
  (reporter <- lift (KetryxReporter_init env_config) ;;
   run_builds reporter config_file) t.
Proof. unfold main. now intros ->. Qed.

(** C8 (as amended): [main] raises the configuration error, before
    anything else happens, when the project, the API key or the version
    is unset, and also when one of them is set to the empty string; when
    all three are set and non-empty the check passes and [main] goes on
    to build the reporter and run the builds, whether or not the base
    URL and the commit SHA are set. *)
Theorem startup_env_check (config_file : string) (t : list event) :
  (getenv "KETRYX_PROJECT" = None \/ getenv "KETRYX_API_KEY" = None \/
   getenv "KETRYX_VERSION" = None ->
   main config_file t =
   (t, inl (ValueError "Missing required environment variables"))) /\
  (getenv "KETRYX_PROJECT" = Some "" \/ getenv "KETRYX_API_KEY" = Some "" \/
   getenv "KETRYX_VERSION" = Some "" ->
   main config_file t =
   (t, inl (ValueError "Missing required environment variables"))) /\
  (forall p k v,
     getenv "KETRYX_PROJECT" = Some p -> p <> "" ->
     getenv "KETRYX_API_KEY" = Some k -> k <> "" ->
     getenv "KETRYX_VERSION" = Some v -> v <> "" ->
     main config_file t =
     (reporter <- lift (KetryxReporter_init env_config) ;;
      run_builds reporter config_file) t).
Proof.
  split; [| split].
  - intros H. apply main_env_rejected. rewrite required_env_spec.
    destruct H as [-> | [-> | ->]]; simpl;
      now rewrite ?andb_false_r.
  - intros H. apply main_env_rejected. rewrite required_env_spec.
    destruct H as [-> | [-> | ->]]; simpl;
      now rewrite ?andb_false_r.
  - intros p k v Ep Hp Ek Hk Ev Hv. apply main_env_accepted.
    rewrite required_env_spec, Ep, Ek, Ev. simpl.
    apply String.eqb_neq in Hp, Hk, Hv. now rewrite Hp, Hk, Hv.
Qed.

(** Passing the check is not yet a reporter: without [KETRYX_URL] the
    constructor fails on [None.rstrip], outside the [try] block. *)
Lemma main_without_url config_file t :
  required_env env_config = true ->
  getenv "KETRYX_URL" = None ->
  main config_file t = (t, inl AttributeError).
Proof.
  intros Henv Hurl. rewrite (main_env_accepted _ _ Henv).
  unfold KetryxReporter_init. simpl ketryx_url. now rewrite Hurl.
Qed.

(** When the loader raises [e] without having posted anything, so does
    the run: the handler only prints. *)
Lemma run_builds_loader_error reporter config_file t t' e :
  process_build_config config_file t = (t', inl e) ->
  requests_of t' = requests_of t ->
  requests_of (fst (run_builds reporter config_file t)) = requests_of t /\
  snd (run_builds reporter config_file t) = inl e.
Proof.
  intros Hload Hreq. unfold run_builds, try_except.
  rewrite (bind_err _ _ _ _ _ Hload).
  destruct (is_Exception e); simpl.
  - unfold bind, print, raise. simpl. rewrite requests_of_app. simpl.
    now rewrite app_nil_r.
  - now split.
Qed.

Lemma main_loader_error config_file t t' e :
  process_build_config config_file t = (t', inl e) ->
  requests_of t' = requests_of t ->
  requests_of (fst (main config_file t)) = requests_of t /\
  exists e', snd (main config_file t) = inl e'.
Proof.
  intros Hload Hreq. unfold main.
  destruct (required_env env_config); simpl.
  - unfold bind, lift. destruct (KetryxReporter_init env_config) as [e0|reporter].
    + split; [reflexivity | now exists e0].
    + destruct (run_builds_loader_error reporter _ _ _ _ Hload Hreq) as [H1 H2].
      split; [assumption | now exists e].
  - split; [reflexivity | eexists; reflexivity].
Qed.

(** C6: when the parsed content of the configuration file is empty
    (falsy) or is a mapping without the key [builds] (or a sequence or a
    string in which ['builds' in ...] is false), the loader raises the
    configuration error ([ValueError], "Invalid config file: missing
    'builds' section") without any event, and the whole run fails without
    a single request. *)
Theorem missing_builds_section (config_file : string) (v : pyval) (t : list event) :
  load_yaml config_file = inr v ->
  (Py.truthy v = false \/
   (exists d, v = PDict d /\ Py.dict_get d "builds" = None) \/
   Py.contains v "builds" = inr false) ->
  process_build_config config_file t =
    (t, inl (ValueError "Invalid config file: missing 'builds' section")) /\
  requests_of (fst (main config_file t)) = requests_of t /\
  exists e, snd (main config_file t) = inl e.
Proof.
  intros Hload Hv.
  assert (Hp : process_build_config config_file t =
               (t, inl (ValueError "Invalid config file: missing 'builds' section"))).
  { unfold process_build_config. rewrite (bind_lift_ok _ _ _ _ Hload).
    assert (Hcontains : Py.truthy v = false \/ Py.contains v "builds" = inr false).
    { destruct Hv as [Hfalse | [(d & -> & Hd) | Hc]]; [now left | right | now right].
      unfold Py.contains, Py.dict_has. now rewrite Hd. }
    destruct Hcontains as [Hfalse | Hc].
    - rewrite Hfalse. reflexivity.
    - destruct (Py.truthy v); simpl; [| reflexivity].
      unfold bind, lift, ret. now rewrite Hc. }
  split; [exact Hp |].
  exact (main_loader_error _ _ _ _ Hp eq_refl).
Qed.

End Startup.

(** ** Validation of the artifact patterns *)

Section Validation.

Context {W : World}.

Lemma missing_entries_cons d ds :
  missing_entries (d :: ds) = missing_entries [d] ++ missing_entries ds.
Proof.
  unfold missing_entries. simpl. rewrite app_nil_r.
  now rewrite filter_app, map_app.
Qed.

Lemma filter_labelled {A} (label : string) (f : A -> string) (l : list A) :
  map (fun lp => fst lp +++ " file not found: " +++ snd lp)
      (filter (fun lp => no_match (snd lp)) (map (fun a => (label, f a)) l)) =
  map (fun p => label +++ " file not found: " +++ p) (filter no_match (map f l)).
Proof.
  induction l as [|a l IH]; simpl; [reflexivity |].
  destruct (no_match (f a)); simpl; now rewrite IH.
Qed.

(** One validation pass over a list of pattern strings raises nothing,
    prints nothing, and appends one entry per pattern without a match. *)
Lemma check_paths_run label ps missing t :
  check_paths label (str_list ps) missing t =
  (t, inr (missing ++ map (fun p => label +++ " file not found: " +++ p)
                          (filter no_match ps))).
Proof.
  unfold check_paths, str_list.
  rewrite bind_lift_ok with (a := map PStr ps) by reflexivity.
  revert missing. induction ps as [|p ps IH]; intros missing; simpl.
  - unfold ret. now rewrite app_nil_r.
  - erewrite bind_ok by reflexivity. cbv beta. unfold no_match at 1.
    destruct (glob p) as [|f fs]; simpl.
    + rewrite IH. now rewrite <- app_assoc.
    + apply IH.
Qed.

Lemma get_paths spec key ps :
  Py.dict_get spec key = option_map str_list ps ->
  Py.get (PDict spec) key (PList []) = inr (str_list (opt_list ps)).
Proof.
  intros Hget. unfold Py.get. rewrite Hget. now destruct ps.
Qed.

Lemma check_sbom_run artifacts items missing t :
  Forall2 sbom_entry artifacts items ->
  for_each (fun artifact missing_files =>
      file <- lift (Py.getitem artifact "file") ;;
      found <- lift (py_glob file) ;;
      ret (match found with
           | [] => missing_files ++ ["SBOM file not found: " +++ py_str file]
           | _ => missing_files
           end))
    items missing t =
  (t, inr (missing ++ map (fun p => "SBOM" +++ " file not found: " +++ p)
                          (filter no_match (map fst artifacts)))).
Proof.
  intros Hall. revert missing.
  induction Hall as [|a v artifacts items (d & -> & Hfile & _) _ IH];
    intros missing; simpl.
  - unfold ret. now rewrite app_nil_r.
  - erewrite bind_ok
      by (unfold Py.getitem; rewrite Hfile; reflexivity).
    cbv beta. unfold no_match at 1.
    destruct (glob (fst a)) as [|f fs]; simpl.
    + rewrite IH. now rewrite <- app_assoc.
    + apply IH.
Qed.

(** The validation of one well-formed build entry. *)
Lemma check_build_run d v missing t :
  describes d v ->
  check_build v missing t = (t, inr (missing ++ missing_entries [d])).
Proof.
  intros Hd. unfold missing_entries. simpl flat_map. rewrite app_nil_r.
  destruct Hd as [name junit cucumber d spec _ Htype Hspec Hj Hc
                 | name artifacts d items _ Htype Hspec Hitems
                 | name kind d _ Htype Hk1 Hk2];
    unfold check_build;
    erewrite bind_lift_ok by (unfold Py.getitem; now rewrite Htype).
  - change (Py.eq_str (PStr "test-results") "test-results") with true. cbv iota.
    assert (Hget : Py.getitem (PDict d) "artifacts" = inr (PDict spec)).
    { unfold Py.getitem. now rewrite Hspec. }
    rewrite (bind_lift_ok _ _ _ _ Hget).
    rewrite (bind_lift_ok _ _ _ _ (get_paths _ _ _ Hj)).
    rewrite (bind_ok _ _ _ _ _ (check_paths_run _ _ _ _)).
    rewrite (bind_lift_ok _ _ _ _ Hget).
    rewrite (bind_lift_ok _ _ _ _ (get_paths _ _ _ Hc)).
    rewrite check_paths_run. simpl patterns_of.
    rewrite filter_app, map_app.
    rewrite (filter_labelled "JUnit" (fun p => p)).
    rewrite (filter_labelled "Cucumber" (fun p => p)).
    now rewrite !map_id, app_assoc.
  - change (Py.eq_str (PStr "sbom") "test-results") with false.
    change (Py.eq_str (PStr "sbom") "sbom") with true. cbv iota.
    erewrite bind_lift_ok by (unfold Py.getitem; now rewrite Hspec).
    rewrite bind_lift_ok with (a := items) by reflexivity.
    rewrite (check_sbom_run artifacts items missing t Hitems).
    simpl patterns_of. now rewrite (filter_labelled "SBOM" fst).
  - apply String.eqb_neq in Hk1, Hk2. unfold Py.eq_str. rewrite Hk1, Hk2.
    unfold ret. simpl. now rewrite app_nil_r.
Qed.

Lemma check_builds_run ds items missing t :
  Forall2 describes ds items ->
  for_each check_build items missing t = (t, inr (missing ++ missing_entries ds)).
Proof.
  intros Hall. revert missing.
  induction Hall as [|d v ds items Hd _ IH]; intros missing; simpl.
  - unfold ret. now rewrite app_nil_r.
  - rewrite (bind_ok _ _ _ _ _ (check_build_run d v missing t Hd)).
    rewrite IH, (missing_entries_cons d ds). now rewrite app_assoc.
Qed.

(** The loader on a well-formed configuration: it returns the builds
    when every pattern has a match, and otherwise prints the heading and
    one line per missing entry and exits with status 1. *)
Lemma process_build_config_run config_file m items ds t :
  load_yaml config_file = inr (PDict m) ->
  Py.dict_get m "builds" = Some (PList items) ->
  Forall2 describes ds items ->
  process_build_config config_file t =
  match missing_entries ds with
  | [] => (t, inr (PList items))
  | entries =>
      (t ++ Out (nl +++ "Missing files:") :: map (fun e => Out ("  - " +++ e)) entries,
       inl (SystemExit 1))
  end.
Proof.
  intros Hload Hbuilds Hall. unfold process_build_config.
  rewrite (bind_lift_ok _ _ _ _ Hload).
  assert (Htruthy : Py.truthy (PDict m) = true).
  { destruct m; [discriminate | reflexivity]. }
  assert (Hget : Py.getitem (PDict m) "builds" = inr (PList items)).
  { unfold Py.getitem. now rewrite Hbuilds. }
  rewrite Htruthy. simpl negb. cbv iota.
  rewrite bind_ok with (t' := t) (a := false).
  2:{ rewrite bind_lift_ok with (a := true); [reflexivity |].
      unfold Py.contains, Py.dict_has. now rewrite Hbuilds. }
  rewrite (bind_lift_ok _ _ _ _ Hget).
  rewrite bind_lift_ok with (a := items) by reflexivity.
  rewrite (bind_ok _ _ _ _ _ (check_builds_run ds items [] t Hall)).
  rewrite app_nil_l.
  destruct (missing_entries ds) as [|e entries];
    [unfold lift; now rewrite Hget |].
  rewrite bind_ok with (t' := t ++ [Out (nl +++ "Missing files:")]) (a := tt)
    by reflexivity.
  erewrite bind_ok by apply for_each_print.
  unfold raise. now rewrite <- app_assoc.
Qed.

(** The loader never posts a request, whatever the file holds. *)
Lemma quiet_bind {A B} (m : M A) (k : A -> M B) :
  quiet m -> (forall a, quiet (k a)) -> quiet (bind m k).
Proof.
  intros Hm Hk t. destruct (Hm t) as (e1 & Ht & Hq). unfold bind.
  destruct (m t) as [t1 [e|a]]; simpl in *; subst t1.
  - now exists e1.
  - destruct (Hk a (t ++ e1)) as (e2 & Ht2 & Hq2).
    exists (e1 ++ e2). rewrite Ht2, app_assoc, requests_of_app, Hq, Hq2.
    now split.
Qed.

Lemma quiet_pure {A} (r : result A) : quiet (lift r).
Proof. intros t. exists []. simpl. now rewrite app_nil_r. Qed.

Lemma quiet_print line : quiet (print line).
Proof. intros t. now exists [Out line]. Qed.

Lemma quiet_for_each {A S} (body : A -> S -> M S) l s :
  (forall x s, quiet (body x s)) -> quiet (for_each body l s).
Proof.
  intros Hbody. revert s. induction l as [|x l IH]; intros s; simpl.
  - apply (quiet_pure (inr s)).
  - apply quiet_bind; auto.
Qed.

Lemma quiet_process_build_config config_file :
  quiet (process_build_config config_file).
Proof.
  unfold process_build_config, check_build, check_paths.
  repeat first
    [ apply quiet_pure
    | apply (quiet_pure (inr _))
    | apply (quiet_pure (inl _))
    | apply quiet_print
    | apply quiet_for_each; intros
    | apply quiet_bind; [| intros]
    | match goal with
      | |- quiet (if ?b then _ else _) => destruct b
      | |- quiet (match ?x with _ => _ end) => destruct x
      end ].
Qed.

(** C2: on a well-formed configuration in which some pattern of some
    build entry matches no file, the loader prints the heading and one
    line for each such pattern of each entry in file order, then exits
    with status 1; every pattern without a match has its entry in that
    list; and the run as a whole ends in an error without having posted
    a single request.  On any file at all, the loader itself posts no
    request. *)
Theorem missing_files_all_reported (config_file : string)
    (m : list (string * pyval)) (items : list pyval) (ds : list descriptor)
    (t : list event) :
  load_yaml config_file = inr (PDict m) ->
  Py.dict_get m "builds" = Some (PList items) ->
  Forall2 describes ds items ->
  (exists d label p, In d ds /\ In (label, p) (patterns_of d) /\ glob p = []) ->
  process_build_config config_file t =
    (t ++ Out (nl +++ "Missing files:")
       :: map (fun e => Out ("  - " +++ e)) (missing_entries ds),
     inl (SystemExit 1)) /\
  (forall d label p,
     In d ds -> In (label, p) (patterns_of d) -> glob p = [] ->
     In (label +++ " file not found: " +++ p) (missing_entries ds)) /\
  requests_of (fst (main config_file t)) = requests_of t /\
  (exists e, snd (main config_file t) = inl e) /\
  (forall any_file t0,
     requests_of (fst (process_build_config any_file t0)) = requests_of t0).
Proof.
  intros Hload Hbuilds Hall Hmiss.
  assert (Hin : forall d label p,
            In d ds -> In (label, p) (patterns_of d) -> glob p = [] ->
            In (label +++ " file not found: " +++ p) (missing_entries ds)).
  { intros d label p Hd Hp Hg. unfold missing_entries.
    apply (in_map (fun lp => fst lp +++ " file not found: " +++ snd lp) _ (label, p)).
    apply filter_In. split.
    - apply in_flat_map. now exists d.
    - simpl. unfold no_match. now rewrite Hg. }
  assert (Hrun : process_build_config config_file t =
            (t ++ Out (nl +++ "Missing files:")
               :: map (fun e => Out ("  - " +++ e)) (missing_entries ds),
             inl (SystemExit 1))).
  { rewrite (process_build_config_run _ _ _ _ _ Hload Hbuilds Hall).
    destruct Hmiss as (d & label & p & Hd & Hp & Hg).
    specialize (Hin d label p Hd Hp Hg).
    destruct (missing_entries ds); [destruct Hin | reflexivity]. }
  split; [exact Hrun | split; [exact Hin |]].
  apply and_assoc. split.
  - apply (main_loader_error _ _ _ _ Hrun).
    rewrite requests_of_app. simpl.
    rewrite (requests_of_outs _ (fun e => "  - " +++ e)). apply app_nil_r.
  - intros any_file t0.
    destruct (quiet_process_build_config any_file t0) as (evs & -> & Hq).
    now rewrite requests_of_app, Hq, app_nil_r.
Qed.

End Validation.

(** ** A rejected upload ends the run *)

Section FailStop.

Context {W : World}.

Lemma fail_stop_app e1 e2 err :
  fail_stop e1 None -> fail_stop e2 err -> fail_stop (e1 ++ e2) err.
Proof.
  induction e1 as [|ev e1 IH]; simpl; [auto |].
  destruct (upload_rejected ev).
  - intros [_ H]. discriminate.
  - auto.
Qed.

(** What [fail_stop] means, event by event. *)
Lemma fail_stop_last evs err pre ev post msg :
  fail_stop evs err -> evs = pre ++ ev :: post -> upload_rejected ev = Some msg ->
  post = [] /\ err = Some (Exception_ msg).
Proof.
  intros H ->. revert H. induction pre as [|x pre IH]; simpl; intros H Hrej.
  - now rewrite Hrej in H.
  - destruct (upload_rejected x).
    + destruct H as [H _]. now destruct pre.
    + auto.
Qed.

Lemma stops_ret {A} (a : A) : stops (ret a).
Proof. intros t. exists []. simpl. now rewrite app_nil_r. Qed.

Lemma stops_raise {A} e : stops (@raise A e).
Proof. intros t. exists []. simpl. now rewrite app_nil_r. Qed.

Lemma stops_lift {A} (r : result A) : stops (lift r).
Proof. intros t. exists []. simpl. now rewrite app_nil_r. Qed.

Lemma stops_print line : stops (print line).
Proof. intros t. exists [Out line]. simpl. auto. Qed.

Lemma stops_bind {A B} (m : M A) (k : A -> M B) :
  stops m -> (forall a, stops (k a)) -> stops (bind m k).
Proof.
  intros Hm Hk t. destruct (Hm t) as (e1 & Ht & Hf). unfold bind.
  destruct (m t) as [t1 [e|a]]; simpl in *; subst t1.
  - now exists e1.
  - destruct (Hk a (t ++ e1)) as (e2 & Ht2 & Hf2).
    exists (e1 ++ e2). rewrite Ht2, app_assoc. split; [reflexivity |].
    now apply fail_stop_app.
Qed.

Lemma stops_for_each {A S} (body : A -> S -> M S) l s :
  (forall x s, stops (body x s)) -> stops (for_each body l s).
Proof.
  intros Hbody. revert s. induction l as [|x l IH]; intros s; simpl.
  - apply stops_ret.
  - apply stops_bind; auto.
Qed.

(** The single-file upload: the only place a rejection can occur, and
    there the exception follows at once. *)
Lemma stops_upload_artifact self file_path content_type :
  stops (upload_artifact self file_path content_type).
Proof.
  intros t. unfold upload_artifact, bind, lift, open_rb, http_post.
  destruct (fs_open file_path).
  { exists []. simpl. now rewrite app_nil_r. }
  destruct (Py.dict_get (headers self) "Authorization") as [a|].
  2:{ exists []. simpl. now rewrite app_nil_r. }
  exists [Post (upload_request self a file_path content_type)
               (server t (upload_request self a file_path content_type))].
  unfold upload_request.
  destruct (server t _) as [e|resp]; simpl; [now split |].
  destruct (status_code resp =? 200); simpl; [| now repeat split].
  destruct (json resp); simpl; now split.
Qed.

Lemma stops_report_build self build_name artifacts :
  stops (report_build self build_name artifacts).
Proof.
  intros t. rewrite report_build_run. eexists. split; [reflexivity |].
  simpl. exact I.
Qed.

Create HintDb stops.

#[local] Hint Resolve stops_ret stops_raise stops_lift stops_print
  stops_upload_artifact stops_report_build : stops.
#[local] Hint Extern 3 (stops (bind _ _)) => apply stops_bind; [| intro] : stops.
#[local] Hint Extern 3 (stops (for_each _ _ _)) => apply stops_for_each; do 2 intro : stops.
#[local] Hint Extern 4 (stops (if ?b then _ else _)) => destruct b : stops.
#[local] Hint Extern 4 (stops (match ?x with _ => _ end)) => destruct x : stops.

Lemma stops_upload_matches self content_type tag paths artifacts :
  stops (upload_matches self content_type tag paths artifacts).
Proof. unfold upload_matches, upload_one. auto 10 with stops. Qed.

Lemma stops_upload_build reporter build artifacts :
  stops (upload_build reporter build artifacts).
Proof.
  unfold upload_build, upload_test_results, upload_sbom.
  pose proof stops_upload_matches. auto 20 with stops.
Qed.

Lemma stops_main_body reporter build artifacts :
  stops (main_body reporter build artifacts).
Proof.
  unfold main_body, report_and_confirm.
  pose proof stops_upload_build. auto 20 with stops.
Qed.

Lemma stops_main_loop reporter builds artifacts :
  stops (main_loop reporter builds artifacts).
Proof. apply stops_for_each. intros. apply stops_main_body. Qed.

Lemma stops_process_build_config config_file :
  stops (process_build_config config_file).
Proof.
  unfold process_build_config, check_build, check_paths. auto 30 with stops.
Qed.

End FailStop.

Section UploadErrors.

Context {W : World}.

(** What one upload does once the file is open and the request is
    answered. *)
Lemma upload_artifact_run self file_path content_type t authorization resp :
  fs_open file_path = None ->
  Py.dict_get (headers self) "Authorization" = Some authorization ->
  server t (upload_request self authorization file_path content_type) = inr resp ->
  upload_artifact self file_path content_type t =
  (t ++ [Post (upload_request self authorization file_path content_type) (inr resp)],
   if status_code resp =? 200 then
     match json resp with
     | inl e => inl e
     | inr body => Py.getitem body "id"
     end
   else inl (Exception_ ("Failed to upload artifact: " +++ text resp))).
Proof.
  intros Hopen Hauth Hresp.
  unfold upload_artifact, bind, lift, open_rb, http_post.
  rewrite Hopen, Hauth, Hresp.
  destruct (status_code resp =? 200); simpl; [| reflexivity].
  now destruct (json resp).
Qed.

Lemma split_last {A} (pre post evs : list A) (ev x : A) :
  pre ++ ev :: post = evs ++ [x] ->
  (post = [] /\ ev = x) \/ exists post', post = post' ++ [x] /\ evs = pre ++ ev :: post'.
Proof.
  intros H. destruct post as [|p post].
  - left. apply app_inj_tail in H as [_ H]. now split.
  - right. destruct (@exists_last _ (p :: post)) as (l & y & Hl); [discriminate |].
    rewrite Hl in *. change (ev :: l ++ [y]) with ((ev :: l) ++ [y]) in H.
    rewrite app_assoc in H. apply app_inj_tail in H as [H1 H2]. subst.
    exists l. now split.
Qed.

(** After a rejected upload, [run_builds] does nothing but print the
    error and raise it again. *)
Lemma run_builds_fail_stop reporter config_file t :
  exists evs,
    fst (run_builds reporter config_file t) = t ++ evs /\
    forall pre ev post msg,
      evs = pre ++ ev :: post -> upload_rejected ev = Some msg ->
      post = [Out ("Error: " +++ msg)] /\
      snd (run_builds reporter config_file t) = inl (Exception_ msg).
Proof.
  unfold run_builds, try_except.
  set (body := builds <- process_build_config config_file ;; _).
  assert (Hbody : stops body).
  { subst body. apply stops_bind; [apply stops_process_build_config | intros builds].
    apply stops_bind; [apply stops_lift | intros items].
    apply stops_bind; [apply stops_main_loop | intros _; apply stops_ret]. }
  destruct (Hbody t) as (evs0 & Ht & Hstop).
  destruct (body t) as [t' [e|[]]]; simpl in Ht, Hstop; subst t'.
  - destruct (is_Exception e) eqn:Hexc.
    + exists (evs0 ++ [Out ("Error: " +++ err_str e)]). split.
      * unfold bind, print, raise. simpl. now rewrite app_assoc.
      * intros pre ev post msg Hsplit Hrej.
        symmetry in Hsplit.
        apply split_last in Hsplit as [[_ ->] | (post' & -> & ->)]; [discriminate |].
        destruct (fail_stop_last _ _ _ _ _ _ Hstop eq_refl Hrej) as [-> Herr].
        injection Herr as ->. now split.
    + exists evs0. split; [reflexivity |].
      intros pre ev post msg Hsplit Hrej.
      destruct (fail_stop_last _ _ _ _ _ _ Hstop Hsplit Hrej) as [_ Herr].
      injection Herr as ->. discriminate.
  - exists evs0. split; [reflexivity |].
    intros pre ev post msg Hsplit Hrej.
    destruct (fail_stop_last _ _ _ _ _ _ Hstop Hsplit Hrej) as [_ Herr].
    discriminate.
Qed.

(** C4: an upload the service answers with a status other than 200
    raises an exception whose message is "Failed to upload artifact: "
    followed by the response body text, and returns no id; an upload
    answered with 200 returns the [id] field of the JSON body; and in
    every run of [main], an upload answered with another status is
    followed by nothing but the line "Error: Failed to upload artifact:
    <body>" and the run ends with that exception, so no build record is
    posted for the entry being processed (nor for any later one). *)
Theorem rejected_upload_ends_run :
  (forall self file_path content_type t authorization resp,
     fs_open file_path = None ->
     Py.dict_get (headers self) "Authorization" = Some authorization ->
     server t (upload_request self authorization file_path content_type) = inr resp ->
     (status_code resp <> 200 ->
      upload_artifact self file_path content_type t =
      (t ++ [Post (upload_request self authorization file_path content_type) (inr resp)],
       inl (Exception_ ("Failed to upload artifact: " +++ text resp)))) /\
     (forall body artifact_id,
        status_code resp = 200 -> json resp = inr body ->
        Py.getitem body "id" = inr artifact_id ->
        upload_artifact self file_path content_type t =
        (t ++ [Post (upload_request self authorization file_path content_type) (inr resp)],
         inr artifact_id))) /\
  (forall config_file t,
   exists evs,
     fst (main config_file t) = t ++ evs /\
     forall pre url proj auth filename file_path content_type resp post,
       evs = pre ++ Post (UploadReq url proj auth filename file_path content_type)
                         (inr resp) :: post ->
       status_code resp <> 200 ->
       post = [Out ("Error: Failed to upload artifact: " +++ text resp)] /\
       snd (main config_file t) =
         inl (Exception_ ("Failed to upload artifact: " +++ text resp))).
Proof.
  split.
  - intros self file_path content_type t authorization resp Hopen Hauth Hresp.
    rewrite (upload_artifact_run _ _ _ _ _ _ Hopen Hauth Hresp). split.
    + intros Hne. apply Z.eqb_neq in Hne. now rewrite Hne.
    + intros body artifact_id Hok Hjson Hid. apply Z.eqb_eq in Hok.
      now rewrite Hok, Hjson, Hid.
  - intros config_file t.
    assert (Hnone : forall r : result unit,
              exists evs, fst (t, r) = t ++ evs /\
                forall pre url proj auth filename file_path content_type resp post,
                  evs = pre ++ Post (UploadReq url proj auth filename file_path content_type)
                                    (inr resp) :: post ->
                  status_code resp <> 200 ->
                  post = [Out ("Error: Failed to upload artifact: " +++ text resp)] /\
                  snd (t, r) =
                    inl (Exception_ ("Failed to upload artifact: " +++ text resp))).
    { intros r. exists []. split; [simpl; now rewrite app_nil_r |].
      intros pre ? ? ? ? ? ? ? ? H. now destruct pre. }
    unfold main. destruct (negb (required_env env_config)); [apply Hnone |].
    unfold bind at 1, lift.
    destruct (KetryxReporter_init env_config) as [e|reporter]; [apply Hnone |].
    destruct (run_builds_fail_stop reporter config_file t) as (evs & Ht & Hev).
    exists evs. split; [exact Ht |].
    intros pre url proj auth filename file_path content_type resp post Hsplit Hne.
    apply (Hev pre _ post _ Hsplit). simpl.
    apply Z.eqb_neq in Hne. now rewrite Hne.
Qed.

End UploadErrors.

(** ** The loop of [main] *)

Section Orchestration.

Context {W : World}.

Lemma main_loop_cons reporter build rest artifacts t t' artifacts' :
  main_body reporter build artifacts t = (t', inr artifacts') ->
  main_loop reporter (build :: rest) artifacts t = main_loop reporter rest artifacts' t'.
Proof. intros H. unfold main_loop. simpl. now rewrite (bind_ok _ _ _ _ _ H). Qed.

Lemma main_loop_abort reporter build rest artifacts t t' e :
  main_body reporter build artifacts t = (t', inl e) ->
  main_loop reporter (build :: rest) artifacts t = (t', inl e).
Proof. intros H. unfold main_loop. simpl. now rewrite (bind_err _ _ _ _ _ H). Qed.

(** C7: a build entry whose type is neither ["test-results"] nor
    ["sbom"] makes the loop body print one warning line and nothing
    else: no upload, no build record, no exception, and the local
    variables unchanged; the loop then goes on with the remaining
    entries exactly as it would have without it.  The validation pass of
    the loader leaves such an entry alone as well. *)
Theorem unknown_kind_skipped (reporter : KetryxReporter) (build type : pyval)
    (rest : list pyval) (artifacts : option pyval) (missing : list string)
    (t : list event) :
  Py.getitem build "type" = inr type ->
  Py.eq_str type "test-results" = false ->
  Py.eq_str type "sbom" = false ->
  let warning := Out ("Warning: Unknown build type '" +++ py_str type +++ "'") in
  main_body reporter build artifacts t = (t ++ [warning], inr artifacts) /\
  main_loop reporter (build :: rest) artifacts t =
    main_loop reporter rest artifacts (t ++ [warning]) /\
  check_build build missing t = (t, inr missing).
Proof.
  intros Htype Hnot_tests Hnot_sbom warning.
  assert (Hbody : main_body reporter build artifacts t = (t ++ [warning], inr artifacts)).
  { unfold main_body, upload_build.
    rewrite bind_ok with (t' := t ++ [warning]) (a := (artifacts, false));
      [reflexivity |].
    rewrite (bind_lift_ok _ _ _ _ Htype), Hnot_tests, Hnot_sbom. reflexivity. }
  split; [exact Hbody | split].
  - apply main_loop_cons, Hbody.
  - unfold check_build.
    now rewrite (bind_lift_ok _ _ _ _ Htype), Hnot_tests, Hnot_sbom.
Qed.

(** The upload branch for an sbom entry without artifact entries leaves
    [artifacts] as it was and goes on to the report. *)
Lemma upload_build_empty_sbom reporter d artifacts t :
  Py.dict_get d "type" = Some (PStr "sbom") ->
  Py.dict_get d "artifacts" = Some (PList []) ->
  upload_build reporter (PDict d) artifacts t = (t, inr (artifacts, true)).
Proof.
  intros Htype Hartifacts. unfold upload_build.
  erewrite bind_lift_ok by (unfold Py.getitem; now rewrite Htype).
  change (Py.eq_str (PStr "sbom") "test-results") with false.
  change (Py.eq_str (PStr "sbom") "sbom") with true. cbv iota.
  erewrite bind_lift_ok by (unfold Py.getitem; now rewrite Hartifacts).
  reflexivity.
Qed.

(** The tail of the loop body posts the build record for whatever
    [artifacts] holds. *)
Lemma report_and_confirm_posts reporter build name previous t :
  Py.getitem build "name" = inr name ->
  let req := ReportReq (base_url reporter +++ "/api/v1/builds") (headers reporter)
               (report_data reporter name previous) in
  exists evs,
    fst (report_and_confirm reporter build (Some previous) t) =
    t ++ Post req (server t req) :: evs.
Proof.
  intros Hname req. unfold report_and_confirm.
  rewrite (bind_lift_ok _ _ _ _ Hname).
  erewrite bind_lift_ok by reflexivity.
  unfold bind at 1. rewrite report_build_run. fold req.
  destruct (server t req) as [e|resp]; [now exists [] |].
  destruct (status_code resp =? 200); [| now exists []].
  destruct (json resp) as [e|build_result]; [now exists [] |].
  rewrite (bind_lift_ok _ _ _ _ Hname).
  unfold bind, lift, print.
  destruct (Py.get build_result "buildId" PNone); simpl.
  - now exists [].
  - rewrite <- app_assoc. eexists. reflexivity.
Qed.

(** C10: take a configuration whose first build entry is an sbom entry
    with an empty [artifacts] sequence, the other entries being well
    formed with all their patterns matched, and an environment that
    passes the startup check.  The loader accepts it; [main] then reads
    the local variable [artifacts] before any assignment: the run ends
    with [UnboundLocalError], having printed only the error line and
    posted nothing.  The same entry met later in the loop, when
    [artifacts] still holds the list [previous] of an earlier entry,
    posts a build record whose artifacts are [previous]. *)
Theorem empty_sbom_reads_unbound_artifacts (config_file url : string)
    (m d : list (string * pyval)) (name : pyval) (rest : list pyval)
    (ds : list descriptor) (t : list event) :
  load_yaml config_file = inr (PDict m) ->
  Py.dict_get m "builds" = Some (PList (PDict d :: rest)) ->
  Py.dict_get d "name" = Some name ->
  Py.dict_get d "type" = Some (PStr "sbom") ->
  Py.dict_get d "artifacts" = Some (PList []) ->
  Forall2 describes ds rest ->
  missing_entries ds = [] ->
  required_env env_config = true ->
  getenv "KETRYX_URL" = Some url ->
  process_build_config config_file t = (t, inr (PList (PDict d :: rest))) /\
  main config_file t =
    (t ++ [Out ("Error: " +++ interp_msg (UnboundLocalError "artifacts"))],
     inl (UnboundLocalError "artifacts")) /\
  (forall reporter previous t0,
     let req := ReportReq (base_url reporter +++ "/api/v1/builds") (headers reporter)
                  (report_data reporter name previous) in
     Py.dict_get (report_data reporter name previous) "artifacts" = Some previous /\
     exists evs,
       fst (main_body reporter (PDict d) (Some previous) t0) =
       t0 ++ Post req (server t0 req) :: evs).
Proof.
  intros Hload Hbuilds Hname Htype Hartifacts Hrest Hmissing Henv Hurl.
  assert (Hgetname : Py.getitem (PDict d) "name" = inr name).
  { unfold Py.getitem. now rewrite Hname. }
  assert (Hloader : process_build_config config_file t =
                    (t, inr (PList (PDict d :: rest)))).
  { unfold process_build_config.
    rewrite (bind_lift_ok _ _ _ _ Hload).
    assert (Htruthy : Py.truthy (PDict m) = true).
    { destruct m; [discriminate | reflexivity]. }
    assert (Hget : Py.getitem (PDict m) "builds" = inr (PList (PDict d :: rest))).
    { unfold Py.getitem. now rewrite Hbuilds. }
    rewrite Htruthy. simpl negb. cbv iota.
    rewrite bind_ok with (t' := t) (a := false).
    2:{ rewrite bind_lift_ok with (a := true); [reflexivity |].
        unfold Py.contains, Py.dict_has. now rewrite Hbuilds. }
    rewrite (bind_lift_ok _ _ _ _ Hget).
    rewrite bind_lift_ok with (a := PDict d :: rest) by reflexivity.
    rewrite bind_ok with (t' := t) (a := []).
    - unfold lift. now rewrite Hget.
    - simpl for_each. rewrite bind_ok with (t' := t) (a := []).
      + rewrite (check_builds_run ds rest [] t Hrest). now rewrite Hmissing.
      + unfold check_build.
        erewrite bind_lift_ok by (unfold Py.getitem; now rewrite Htype).
        change (Py.eq_str (PStr "sbom") "test-results") with false.
        change (Py.eq_str (PStr "sbom") "sbom") with true. cbv iota.
        erewrite bind_lift_ok by (unfold Py.getitem; now rewrite Hartifacts).
        reflexivity. }
  split; [exact Hloader | split].
  - rewrite (main_env_accepted _ _ Henv).
    unfold KetryxReporter_init. simpl ketryx_url. rewrite Hurl.
    erewrite bind_lift_ok by reflexivity.
    unfold run_builds, try_except.
    rewrite (bind_ok _ _ _ _ _ Hloader).
    rewrite bind_lift_ok with (a := PDict d :: rest) by reflexivity.
    erewrite bind_err.
    2:{ apply main_loop_abort. unfold main_body.
        rewrite (bind_ok _ _ _ _ _ (upload_build_empty_sbom _ _ _ _ Htype Hartifacts)).
        cbn [fst snd]. erewrite bind_err; [reflexivity |].
        unfold report_and_confirm.
        rewrite (bind_lift_ok _ _ _ _ Hgetname). reflexivity. }
    reflexivity.
  - intros reporter previous t0 req. split.
    + unfold report_data.
      destruct (Py.truthy_opt (version (config reporter)));
        [| destruct (Py.truthy_opt (commit_sha (config reporter)))]; reflexivity.
    + unfold main_body.
      rewrite (bind_ok _ _ _ _ _ (upload_build_empty_sbom _ _ _ _ Htype Hartifacts)).
      cbn [fst snd].
      destruct (report_and_confirm_posts reporter (PDict d) name previous t0 Hgetname)
        as (evs & Hevs).
      exists evs. unfold bind.
      destruct (report_and_confirm reporter (PDict d) (Some previous) t0)
        as [t1 [e|[]]]; exact Hevs.
Qed.

End Orchestration.

(** ** The order of the uploads *)

Section UploadOrder.

Context {W : World}.

(** Over pattern strings, the loop nest of [upload_matches] is one loop
    over the matched files, pattern by pattern. *)
Lemma upload_matches_flat self content_type tag patterns artifacts t :
  upload_matches self content_type tag (str_list patterns) artifacts t =
  for_each (upload_one self content_type tag) (flat_map glob patterns) artifacts t.
Proof.
  unfold upload_matches, str_list.
  rewrite bind_lift_ok with (a := map PStr patterns) by reflexivity.
  revert artifacts t. induction patterns as [|p ps IH]; intros artifacts t; simpl.
  - reflexivity.
  - rewrite for_each_app.
    transitivity
      (bind (for_each (upload_one self content_type tag) (glob p) artifacts)
            (for_each (fun pattern artifacts =>
               files <- lift (py_glob pattern) ;;
               for_each (upload_one self content_type tag) files artifacts)
               (map PStr ps)) t); [reflexivity |].
    unfold bind.
    destruct (for_each (upload_one self content_type tag) (glob p) artifacts t)
      as [t' [e|artifacts']]; [reflexivity | apply IH].
Qed.

(** One upload either raises, having posted at most the request of its
    item, or was accepted and returns the id of the answer. *)
Lemma upload_artifact_cases self file content_type tag t :
  let req := item_request self (file, content_type, tag) in
  (exists e, upload_artifact self file content_type t = (t, inl e)) \/
  (exists res e, upload_artifact self file content_type t = (t ++ [Post req res], inl e)) \/
  (exists resp body artifact_id,
     status_code resp = 200 /\ json resp = inr body /\
     Py.getitem body "id" = inr artifact_id /\
     upload_artifact self file content_type t = (t ++ [Post req (inr resp)], inr artifact_id)).
Proof.
  unfold item_request, authorization_of, upload_artifact, bind, lift, open_rb, http_post.
  destruct (fs_open file) as [e|]; [left; now exists e |].
  destruct (Py.dict_get (headers self) "Authorization") as [a|];
    [| left; now eexists].
  right. destruct (server t _) as [e|resp] eqn:Hres.
  { left. now exists (inl e), e. }
  destruct (status_code resp =? 200) eqn:Hstatus; simpl.
  2:{ left. now eexists (inr resp), _. }
  destruct (json resp) as [e|body] eqn:Hjson.
  { left. now exists (inr resp), e. }
  destruct (Py.getitem body "id") as [e|artifact_id] eqn:Hid.
  { left. now exists (inr resp), e. }
  right. exists resp, body, artifact_id. apply Z.eqb_eq in Hstatus. now repeat split.
Qed.

Lemma uploaded_app self items1 evs1 arts1 items2 evs2 arts2 :
  uploaded self items1 evs1 arts1 -> uploaded self items2 evs2 arts2 ->
  uploaded self (items1 ++ items2) (evs1 ++ evs2) (arts1 ++ arts2).
Proof.
  intros Hfirst Hsecond. induction Hfirst; simpl; [assumption |].
  now apply uploaded_cons with (body := body).
Qed.

Lemma uploaded_requests self items evs arts :
  uploaded self items evs arts -> requests_of evs = map (item_request self) items.
Proof. induction 1; simpl; [reflexivity | now f_equal]. Qed.

(** The loop over matched files: on success every item was uploaded in
    order and its entry appended; on failure the requests posted are an
    initial segment of the planned ones. *)
Lemma upload_files_run self content_type tag files artifacts t :
  let items := map (fun file => (file, content_type, tag)) files in
  let run := for_each (upload_one self content_type tag) files artifacts t in
  exists evs,
    fst run = t ++ evs /\
    match snd run with
    | inr artifacts' =>
        exists new, artifacts' = artifacts ++ new /\ uploaded self items evs new
    | inl _ => exists rest, map (item_request self) items = requests_of evs ++ rest
    end.
Proof.
  cbv zeta. revert artifacts t.
  induction files as [|file files IH]; intros artifacts t; simpl.
  - exists []. split; [now rewrite app_nil_r |].
    exists []. split; [now rewrite app_nil_r | constructor].
  - destruct (upload_artifact_cases self file content_type tag t)
      as [(e & Hrun) | [(res & e & Hrun) | (resp & body & id & Hs & Hj & Hi & Hrun)]].
    + assert (Hone : upload_one self content_type tag file artifacts t = (t, inl e))
        by (unfold upload_one; now rewrite (bind_err _ _ _ _ _ Hrun)).
      rewrite (bind_err _ _ _ _ _ Hone).
      exists []. split; [simpl; now rewrite app_nil_r |]. simpl. eexists. reflexivity.
    + assert (Hone : upload_one self content_type tag file artifacts t =
                     (t ++ [Post (item_request self (file, content_type, tag)) res], inl e))
        by (unfold upload_one; now rewrite (bind_err _ _ _ _ _ Hrun)).
      rewrite (bind_err _ _ _ _ _ Hone).
      exists [Post (item_request self (file, content_type, tag)) res].
      split; [reflexivity |]. simpl. eexists. reflexivity.
    + assert (Hone : upload_one self content_type tag file artifacts t =
                     (t ++ [Post (item_request self (file, content_type, tag)) (inr resp)],
                      inr (artifacts ++ [artifact_entry id tag])))
        by (unfold upload_one; now rewrite (bind_ok _ _ _ _ _ Hrun)).
      rewrite (bind_ok _ _ _ _ _ Hone).
      destruct (IH (artifacts ++ [artifact_entry id tag])
                   (t ++ [Post (item_request self (file, content_type, tag)) (inr resp)]))
        as (evs & Ht & Hres).
      exists (Post (item_request self (file, content_type, tag)) (inr resp) :: evs).
      split; [rewrite Ht; now rewrite <- app_assoc |].
      destruct (snd (for_each _ files _ _)) as [e|artifacts'].
      * destruct Hres as (rest & Hrest). exists rest. simpl.
        change (upload_request self (authorization_of self) file content_type)
          with (item_request self (file, content_type, tag)).
        now rewrite Hrest.
      * destruct Hres as (new & -> & Hup). exists (artifact_entry id tag :: new).
        split; [now rewrite <- app_assoc |].
        now apply uploaded_cons with (body := body).
Qed.

Lemma matched_items_flat content_type tag patterns :
  matched_items content_type tag patterns =
  map (fun file => (file, content_type, tag)) (flat_map glob patterns).
Proof.
  unfold matched_items. induction patterns as [|p ps IH]; simpl; [reflexivity |].
  now rewrite map_app, IH.
Qed.


(** With every file readable and every upload accepted, the loop over
    matched files uploads all of them and returns their entries. *)
Lemma upload_files_accepted self authorization content_type tag files artifacts t :
  all_readable -> accepts_uploads ->
  Py.dict_get (headers self) "Authorization" = Some authorization ->
  exists evs new,
    for_each (upload_one self content_type tag) files artifacts t =
      (t ++ evs, inr (artifacts ++ new)) /\
    uploaded self (map (fun file => (file, content_type, tag)) files) evs new.
Proof.
  intros Hopen Huploads Hauth. revert artifacts t.
  induction files as [|file files IH]; intros artifacts t; simpl.
  - exists [], []. unfold ret. rewrite !app_nil_r. split; [reflexivity | constructor].
  - destruct (Huploads t (base_url self +++ "/api/v1/build-artifacts")
                (Py.of_opt (project (config self))) authorization
                (Py.basename file) file content_type)
      as (resp & body & id & Hres & Hok & Hjson & Hid).
    pose proof (upload_artifact_run self file content_type t authorization resp
                  (Hopen file) Hauth Hres) as Hrun.
    apply Z.eqb_eq in Hok as Hok'. rewrite Hok', Hjson, Hid in Hrun.
    assert (Hone : upload_one self content_type tag file artifacts t =
              (t ++ [Post (upload_request self authorization file content_type) (inr resp)],
               inr (artifacts ++ [artifact_entry id tag])))
      by (unfold upload_one; now rewrite (bind_ok _ _ _ _ _ Hrun)).
    rewrite (bind_ok _ _ _ _ _ Hone).
    destruct (IH (artifacts ++ [artifact_entry id tag])
                 (t ++ [Post (upload_request self authorization file content_type)
                             (inr resp)])) as (evs & new & Hloop & Hup).
    exists (Post (upload_request self authorization file content_type) (inr resp) :: evs),
           (artifact_entry id tag :: new).
    split.
    + rewrite Hloop. now rewrite <- !app_assoc.
    + replace (upload_request self authorization file content_type)
        with (item_request self (file, content_type, tag))
        by (unfold item_request, authorization_of; now rewrite Hauth).
      now apply uploaded_cons with (body := body).
Qed.

Lemma upload_test_results_accepted self authorization junit cucumber t :
  all_readable -> accepts_uploads ->
  Py.dict_get (headers self) "Authorization" = Some authorization ->
  exists evs artifacts,
    upload_test_results self (str_list junit) (str_list cucumber) t =
      (t ++ evs, inr (PList artifacts)) /\
    uploaded self (test_results_items junit cucumber) evs artifacts.
Proof.
  intros Hopen Huploads Hauth. unfold upload_test_results, test_results_items.
  rewrite !matched_items_flat.
  destruct (upload_files_accepted self authorization "application/xml" "junit-xml"
              (flat_map glob junit) [] t Hopen Huploads Hauth)
    as (evs1 & new1 & Hrun1 & Hup1).
  rewrite <- upload_matches_flat in Hrun1. rewrite (bind_ok _ _ _ _ _ Hrun1).
  destruct (upload_files_accepted self authorization "application/json" "cucumber-json"
              (flat_map glob cucumber) ([] ++ new1) (t ++ evs1) Hopen Huploads Hauth)
    as (evs2 & new2 & Hrun2 & Hup2).
  rewrite <- upload_matches_flat in Hrun2. rewrite (bind_ok _ _ _ _ _ Hrun2).
  exists (evs1 ++ evs2), (new1 ++ new2). split.
  - unfold ret. now rewrite app_assoc.
  - now apply uploaded_app.
Qed.


End UploadOrder.

(* ===================================================================== *)
(** * The properties at concrete inputs *)
(* ===================================================================== *)

(** C1, at a failing input: an sbom build with two artifact entries, in
    a world where both files exist and the service accepts everything.
    Both files are uploaded, one build record is posted, and its
    artifacts are those of the last entry only: the upload of the first
    entry is in no record. *)
Example sbom_report_keeps_last_entry_only :
  let t := fst (@main Demo.world "sbom.yml" []) in
  snd (@main Demo.world "sbom.yml" []) = inr tt /\
  uploaded_files t = ["sbom/app.json"; "sbom/lib.json"] /\
  reported_artifacts t =
    [Some (PList [artifact_entry (PStr "art-lib.json") "spdx-json"])].
Proof. vm_compute. repeat split; reflexivity. Qed.


(** C3, as stated, fails: a configuration whose version is present but
    empty, with a commit SHA, yields a payload with [commitSha] and
    without [version]. *)
Lemma report_payload_blank_version :
  version (config Demo.blank_version_reporter) = Some "" /\
  commit_sha (config Demo.blank_version_reporter) = Some "0a1b2c" /\
  Py.dict_has (@report_data Demo.world Demo.blank_version_reporter
                 (PStr "ci-build") (PList [])) "version" = false /\
  Py.dict_has (@report_data Demo.world Demo.blank_version_reporter
                 (PStr "ci-build") (PList [])) "commitSha" = true.
Proof. repeat split; reflexivity. Qed.

(** C8, as stated, fails: with the project, the API key and the version
    all present in the environment, the version being the empty string,
    startup raises the configuration error. *)
Lemma startup_blank_version_rejected :
  @getenv Demo.blank_version_world "KETRYX_PROJECT" = Some "KXPRJ1" /\
  @getenv Demo.blank_version_world "KETRYX_API_KEY" = Some "s3cret" /\
  @getenv Demo.blank_version_world "KETRYX_VERSION" = Some "" /\
  @main Demo.blank_version_world "tests.yml" [] =
    ([], inl (ValueError "Missing required environment variables")).
Proof. repeat split; reflexivity. Qed.

(** C9, as stated, fails: with both CI variables unset the repository
    URL entry of the build record is ["/"], not the empty string. *)
Lemma report_repository_url_is_slash :
  @getenv Demo.world "GITHUB_SERVER_URL" = None /\
  @getenv Demo.world "GITHUB_REPOSITORY" = None /\
  Py.dict_get (@report_data Demo.world Demo.reporter (PStr "ci-build") (PList []))
              "repositoryUrls" = Some (PList [PStr "/"]) /\
  Py.dict_get (@report_data Demo.world Demo.reporter (PStr "ci-build") (PList []))
              "repositoryUrls" <> Some (PList [PStr ""]).
Proof. repeat split; try reflexivity. discriminate. Qed.

(** C2 at [missing.yml]: both missing patterns, one per build entry, are
    listed, and nothing is posted. *)
Lemma missing_files_all_reported_witness :
  @process_build_config Demo.world "missing.yml" [] =
    ([Out (nl +++ "Missing files:");
      Out "  - JUnit file not found: gone/*.xml";
      Out "  - SBOM file not found: gone.json"],
     inl (SystemExit 1)) /\
  requests_of (fst (@main Demo.world "missing.yml" [])) = [].
Proof.
  assert (Hds : Forall2 (@describes) Demo.missing_yml
                  [Demo.broken_tests_build; Demo.broken_sbom_build]).
  { repeat constructor.
    - now apply describes_test_results with (spec := [("junit", str_list ["out/*.xml"; "gone/*.xml"])]).
    - apply describes_sbom with (items := [Demo.sbom_item "gone.json" "spdx"]);
        try reflexivity.
      repeat constructor. eexists. repeat split; reflexivity. }
  destruct (@missing_files_all_reported Demo.world "missing.yml"
              [("builds", PList [Demo.broken_tests_build; Demo.broken_sbom_build])]
              [Demo.broken_tests_build; Demo.broken_sbom_build]
              Demo.missing_yml [] eq_refl eq_refl Hds) as (Hrun & _ & Hreq & _ & _).
  - exists (Sbom "sbom-build" [("gone.json", "spdx")]), "SBOM", "gone.json".
    repeat split; simpl; auto.
  - split; [exact Hrun | exact Hreq].
Defined.

(** C4 at the refusing service: the second upload is answered 413, the
    call raises with the body text, and the run of [tests.yml] ends
    after that upload with the error line. *)
Lemma rejected_upload_ends_run_witness :
  @upload_artifact Demo.refusing_world Demo.reporter "out/b.xml" "application/xml" [] =
    ([Post (upload_request Demo.reporter "Bearer s3cret" "out/b.xml" "application/xml")
           (inr {| status_code := 413; text := "payload too large";
                   json := inl (LibraryError "JSONDecodeError" "Expecting value") |})],
     inl (Exception_ "Failed to upload artifact: payload too large")) /\
  @upload_artifact Demo.world Demo.reporter "out/b.xml" "application/xml" [] =
    ([Post (upload_request Demo.reporter "Bearer s3cret" "out/b.xml" "application/xml")
           (inr (Demo.ok (PDict [("id", PStr "art-b.xml")])))],
     inr (PStr "art-b.xml")) /\
  snd (@main Demo.refusing_world "tests.yml" []) =
    inl (Exception_ "Failed to upload artifact: payload too large").
Proof.
  split; [| split].
  - refine (proj1 (proj1 (@rejected_upload_ends_run Demo.refusing_world)
                     Demo.reporter "out/b.xml" "application/xml" [] "Bearer s3cret"
                     _ eq_refl eq_refl eq_refl) _).
    discriminate.
  - exact (proj2 (proj1 (@rejected_upload_ends_run Demo.world)
                    Demo.reporter "out/b.xml" "application/xml" [] "Bearer s3cret"
                    _ eq_refl eq_refl eq_refl) _ _ eq_refl eq_refl eq_refl).
  - destruct (proj2 (@rejected_upload_ends_run Demo.refusing_world) "tests.yml" [])
      as (evs & Hevs & Hstop).
    vm_compute in Hevs. subst evs.
    refine (proj2 (Hstop [_] _ _ _ _ _ _
                     {| status_code := 413; text := "payload too large";
                        json := inl (LibraryError "JSONDecodeError" "Expecting value") |}
                     [_] eq_refl _)).
    discriminate.
Defined.

(** C6 at an empty file and at a file without [builds]. *)
Lemma missing_builds_section_witness :
  @process_build_config Demo.world "empty.yml" [] =
    ([], inl (ValueError "Invalid config file: missing 'builds' section")) /\
  @process_build_config Demo.world "other.yml" [] =
    ([], inl (ValueError "Invalid config file: missing 'builds' section")).
Proof.
  split.
  - refine (proj1 (@missing_builds_section Demo.world "empty.yml" PNone [] eq_refl _)).
    left. reflexivity.
  - refine (proj1 (@missing_builds_section Demo.world "other.yml"
                     (PDict [("version", PInt 1)]) [] eq_refl _)).
    right. left. eexists. split; reflexivity.
Defined.

(** C7 at [unknown.yml]: the [docs] entry is skipped with a warning and
    the test results after it are processed. *)
Lemma unknown_kind_skipped_witness :
  @main_loop Demo.world Demo.reporter [Demo.docs_build; Demo.tests_build] None [] =
  @main_loop Demo.world Demo.reporter [Demo.tests_build] None
    [Out "Warning: Unknown build type 'docs'"].
Proof.
  exact (proj1 (proj2 (@unknown_kind_skipped Demo.world Demo.reporter Demo.docs_build
                         (PStr "docs") [Demo.tests_build] None [] []
                         eq_refl eq_refl eq_refl))).
Defined.

(** C8 at the demo environment: the check passes. *)
Lemma startup_env_check_witness :
  @main Demo.world "tests.yml" [] =
  (reporter <- lift (KetryxReporter_init (@env_config Demo.world)) ;;
   @run_builds Demo.world reporter "tests.yml") [].
Proof.
  refine (proj2 (proj2 (@startup_env_check Demo.world "tests.yml" []))
            "KXPRJ1" "s3cret" "1.2.0" eq_refl _ eq_refl _ eq_refl _);
    discriminate.
Defined.

(** C9 at the demo environment, which sets neither CI variable. *)
Lemma report_without_ci_env_witness :
  Py.dict_get (@report_data Demo.world Demo.reporter (PStr "ci-build") (PList []))
              "sourceUrl" = Some (PStr "") /\
  snd (@report_build Demo.world Demo.reporter (PStr "ci-build") (PList []) []) =
    inr (PDict [("buildId", PStr "build-7")]).
Proof.
  destruct (@report_without_ci_env Demo.world Demo.reporter (PStr "ci-build")
              (PList []) [] eq_refl eq_refl) as (Hsource & _ & _ & Hresult).
  split; [exact Hsource |].
  exact (Hresult _ eq_refl eq_refl).
Defined.

(** C10 at [empty-sbom.yml]. *)
Lemma empty_sbom_reads_unbound_artifacts_witness :
  @main Demo.world "empty-sbom.yml" [] =
    ([Out "Error: <interpreter message>"], inl (UnboundLocalError "artifacts")).
Proof.
  exact (proj1 (proj2 (@empty_sbom_reads_unbound_artifacts Demo.world
           "empty-sbom.yml" "https://ketryx.example/"
           [("builds", PList [Demo.empty_sbom_build])]
           [("name", PStr "sbom-build"); ("type", PStr "sbom"); ("artifacts", PList [])]
           (PStr "sbom-build") [] [] []
           eq_refl eq_refl eq_refl eq_refl eq_refl (Forall2_nil _) eq_refl eq_refl eq_refl))).
Defined.

(* ===================================================================== *)
(** * Further properties of the script *)
(* ===================================================================== *)

(** ** The reporter and its requests *)

Section Reporter.

Context {W : World}.

Lemma rstrip_slash_split s :
  exists k, s = Py.rstrip_slash s +++ slashes k /\
            ends_with_slash (Py.rstrip_slash s) = false.
Proof.
  induction s as [|c s (k & Hs & Hend)]; simpl.
  - now exists O.
  - destruct (Py.rstrip_slash s) as [|a r] eqn:Hr.
    + change (EmptyString +++ slashes k) with (slashes k) in Hs.
      destruct (Ascii.eqb_spec c "/") as [-> | Hc].
      * exists (S k). split; [| reflexivity].
        change (EmptyString +++ slashes (S k)) with (String "/" (slashes k)).
        now rewrite <- Hs.
      * exists k. split.
        -- change (String c EmptyString +++ slashes k) with (String c (slashes k)).
           now rewrite <- Hs.
        -- simpl. now apply Ascii.eqb_neq.
    + exists k. split.
      * change (String c (String a r) +++ slashes k)
          with (String c (String a r +++ slashes k)).
        now rewrite <- Hs.
      * exact Hend.
Qed.

(** X1: with a base URL configured, the constructor succeeds; the
    reporter's base URL is the configured one without its trailing
    slashes (all of them, and nothing else), so the endpoint paths are
    joined with exactly one slash; its headers are the bearer token of
    the configured API key and the JSON content type. *)
Theorem init_strips_trailing_slashes (c : KetryxConfig) (url : string) :
  ketryx_url c = Some url ->
  exists reporter k,
    KetryxReporter_init c = inr reporter /\
    config reporter = c /\
    url = base_url reporter +++ slashes k /\
    ends_with_slash (base_url reporter) = false /\
    headers reporter =
      [("Authorization", "Bearer " +++ Py.fmt_opt (api_key c));
       ("Content-Type", "application/json")].
Proof.
  intros Hurl. unfold KetryxReporter_init. rewrite Hurl.
  destruct (rstrip_slash_split url) as (k & Hsplit & Hend).
  eexists. exists k. simpl. now repeat split.
Qed.

(** X2: when the three required variables pass the check but
    [KETRYX_URL] is unset, [main] fails in the constructor with
    [AttributeError]: outside the [try] block, so nothing is printed,
    the configuration file is not read and nothing is posted. *)
Theorem main_needs_base_url (config_file : string) (t : list event) :
  required_env env_config = true ->
  getenv "KETRYX_URL" = None ->
  main config_file t = (t, inl AttributeError).
Proof.
  intros Henv Hurl. rewrite (main_env_accepted _ _ Henv).
  unfold KetryxReporter_init. simpl ketryx_url. now rewrite Hurl.
Qed.

(** X3: the failures of one upload other than a refusal.  A file that
    cannot be opened raises the error of [open] and posts nothing.  Once
    the request is posted: a transport error is raised as it is; a 200
    answer whose body is not JSON raises the decoding error; a 200
    answer whose JSON object has no [id] raises [KeyError('id')].  In
    these three cases the request has been made all the same. *)
Theorem upload_failure_modes (self : KetryxReporter)
    (file_path content_type authorization : string) (t : list event) :
  Py.dict_get (headers self) "Authorization" = Some authorization ->
  let req := upload_request self authorization file_path content_type in
  (forall e, fs_open file_path = Some e ->
     upload_artifact self file_path content_type t = (t, inl e)) /\
  (fs_open file_path = None ->
   (forall e, server t req = inl e ->
      upload_artifact self file_path content_type t =
      (t ++ [Post req (inl e)], inl e)) /\
   (forall resp e, server t req = inr resp -> status_code resp = 200 ->
      json resp = inl e ->
      upload_artifact self file_path content_type t =
      (t ++ [Post req (inr resp)], inl e)) /\
   (forall resp d, server t req = inr resp -> status_code resp = 200 ->
      json resp = inr (PDict d) -> Py.dict_get d "id" = None ->
      upload_artifact self file_path content_type t =
      (t ++ [Post req (inr resp)], inl (KeyError "id")))).
Proof.
  intros Hauth req. split.
  - intros e Hopen. unfold upload_artifact, bind, lift, open_rb. now rewrite Hopen.
  - intros Hopen. repeat split.
    + intros e Hres. unfold upload_artifact, bind, lift, open_rb, http_post.
      rewrite Hopen, Hauth. fold req. now rewrite Hres.
    + intros resp e Hres Hok Hjson.
      rewrite (upload_artifact_run _ _ _ _ _ _ Hopen Hauth Hres).
      apply Z.eqb_eq in Hok. now rewrite Hok, Hjson.
    + intros resp d Hres Hok Hjson Hid.
      rewrite (upload_artifact_run _ _ _ _ _ _ Hopen Hauth Hres).
      apply Z.eqb_eq in Hok. rewrite Hok, Hjson. unfold Py.getitem. now rewrite Hid.
Qed.

(** X4: what follows an accepted build record.  When the JSON body of
    the 200 answer is an object, the confirmation line names the build
    and the [buildId] of the answer, or [None] when the answer has none.
    When the body is JSON but not an object, [build_result.get] raises
    [AttributeError]: the record has been posted and no line is printed. *)
Theorem confirmation_after_report (reporter : KetryxReporter)
    (build name uploaded : pyval) (resp : response) (t : list event) :
  Py.getitem build "name" = inr name ->
  let req := ReportReq (base_url reporter +++ "/api/v1/builds") (headers reporter)
               (report_data reporter name uploaded) in
  server t req = inr resp ->
  status_code resp = 200 ->
  (forall d, json resp = inr (PDict d) ->
     report_and_confirm reporter build (Some uploaded) t =
     (t ++ [Post req (inr resp);
            Out ("Reported " +++ py_str name +++ " to Ketryx: " +++
                 py_str (match Py.dict_get d "buildId" with
                         | Some build_id => build_id
                         | None => PNone
                         end))],
      inr tt)) /\
  (forall body, json resp = inr body -> (forall d, body <> PDict d) ->
     report_and_confirm reporter build (Some uploaded) t =
     (t ++ [Post req (inr resp)], inl AttributeError)).
Proof.
  intros Hname req Hres Hok. apply Z.eqb_eq in Hok.
  assert (Hreport : forall body, json resp = inr body ->
            report_build reporter name uploaded t = (t ++ [Post req (inr resp)], inr body)).
  { intros body Hjson. rewrite report_build_run. fold req. now rewrite Hres, Hok, Hjson. }
  split.
  - intros d Hjson. unfold report_and_confirm.
    rewrite (bind_lift_ok _ _ _ _ Hname).
    erewrite bind_lift_ok by reflexivity.
    rewrite (bind_ok _ _ _ _ _ (Hreport _ Hjson)).
    rewrite (bind_lift_ok _ _ _ _ Hname).
    unfold Py.get.
    destruct (Py.dict_get d "buildId") as [build_id|];
      (erewrite bind_lift_ok by reflexivity);
      unfold print; now rewrite <- app_assoc.
  - intros body Hjson Hnot. unfold report_and_confirm.
    rewrite (bind_lift_ok _ _ _ _ Hname).
    erewrite bind_lift_ok by reflexivity.
    rewrite (bind_ok _ _ _ _ _ (Hreport _ Hjson)).
    rewrite (bind_lift_ok _ _ _ _ Hname).
    apply bind_lift_err. destruct body; try reflexivity. now destruct (Hnot d).
Qed.

End Reporter.

(** ** The loader and the handler of [main] *)

Section Loader.

Context {W : World}.

(** X5: validation is exact.  On a well-formed configuration the
    loader returns the [builds] sequence as it is in the file, without
    printing, when every pattern of every entry matches a file; and
    whenever it returns at all, it has printed nothing, the result is
    that sequence, and every pattern of every entry has a match. *)
Theorem validation_passes_iff_all_match (config_file : string)
    (m : list (string * pyval)) (items : list pyval) (ds : list descriptor)
    (t : list event) :
  load_yaml config_file = inr (PDict m) ->
  Py.dict_get m "builds" = Some (PList items) ->
  Forall2 describes ds items ->
  ((forall d label p, In d ds -> In (label, p) (patterns_of d) -> glob p <> []) ->
   process_build_config config_file t = (t, inr (PList items))) /\
  (forall t' v,
     process_build_config config_file t = (t', inr v) ->
     t' = t /\ v = PList items /\
     forall d label p, In d ds -> In (label, p) (patterns_of d) -> glob p <> []).
Proof.
  intros Hload Hbuilds Hall.
  pose proof (process_build_config_run _ _ _ _ t Hload Hbuilds Hall) as Hrun.
  assert (Hiff : missing_entries ds = [] <->
            forall d label p, In d ds -> In (label, p) (patterns_of d) -> glob p <> []).
  { unfold missing_entries. split.
    - intros Hnone d label p Hd Hp Hg.
      apply map_eq_nil in Hnone.
      assert (Hin : In (label, p) (filter (fun lp => no_match (snd lp))
                                          (flat_map patterns_of ds))).
      { apply filter_In. split; [apply in_flat_map; now exists d |].
        simpl. unfold no_match. now rewrite Hg. }
      now rewrite Hnone in Hin.
    - intros Hmatch.
      destruct (filter (fun lp => no_match (snd lp)) (flat_map patterns_of ds))
        as [|[label p] l] eqn:Hf; [reflexivity | exfalso].
      assert (Hin : In (label, p) (filter (fun lp => no_match (snd lp))
                                          (flat_map patterns_of ds)))
        by (rewrite Hf; now left).
      apply filter_In in Hin as [Hin Hno]. apply in_flat_map in Hin as (d & Hd & Hp).
      apply (Hmatch d label p Hd Hp). simpl in Hno. unfold no_match in Hno.
      now destruct (glob p). }
  split.
  - intros Hmatch. apply Hiff in Hmatch. now rewrite Hrun, Hmatch.
  - intros t' v Hret. rewrite Hrun in Hret.
    destruct (missing_entries ds) as [|e entries] eqn:Hmissing; [| discriminate].
    injection Hret as <- <-. repeat split. now apply Hiff.
Qed.

(** X6: a configuration file that cannot be read or parsed.  The
    loader raises the library's error without any event; [main] prints
    it as one line "Error: <message>" and raises it again, and nothing
    is posted. *)
Theorem unreadable_config_is_reported (config_file : string) (e : pyerr)
    (reporter : KetryxReporter) (t : list event) :
  load_yaml config_file = inl e ->
  is_Exception e = true ->
  required_env env_config = true ->
  KetryxReporter_init env_config = inr reporter ->
  process_build_config config_file t = (t, inl e) /\
  main config_file t = (t ++ [Out ("Error: " +++ err_str e)], inl e).
Proof.
  intros Hload Hexc Henv Hinit.
  assert (Hp : process_build_config config_file t = (t, inl e)).
  { unfold process_build_config. now rewrite (bind_lift_err _ _ _ _ Hload). }
  split; [exact Hp |].
  rewrite (main_env_accepted _ _ Henv), (bind_lift_ok _ _ _ _ Hinit).
  unfold run_builds, try_except. rewrite (bind_err _ _ _ _ _ Hp), Hexc.
  reflexivity.
Qed.

(** X7: an entry without a [type] key stops the validation with
    [KeyError('type')].  The entries before it have been checked, but
    what was found missing among them is dropped: nothing is printed. *)
Theorem entry_without_type_stops_validation (config_file : string)
    (m d : list (string * pyval)) (before after : list pyval)
    (ds : list descriptor) (t : list event) :
  load_yaml config_file = inr (PDict m) ->
  Py.dict_get m "builds" = Some (PList (before ++ PDict d :: after)) ->
  Forall2 describes ds before ->
  Py.dict_get d "type" = None ->
  process_build_config config_file t = (t, inl (KeyError "type")).
Proof.
  intros Hload Hbuilds Hbefore Htype. unfold process_build_config.
  rewrite (bind_lift_ok _ _ _ _ Hload).
  assert (Htruthy : Py.truthy (PDict m) = true).
  { destruct m; [discriminate | reflexivity]. }
  assert (Hget : Py.getitem (PDict m) "builds" = inr (PList (before ++ PDict d :: after))).
  { unfold Py.getitem. now rewrite Hbuilds. }
  rewrite Htruthy. simpl negb. cbv iota.
  rewrite bind_ok with (t' := t) (a := false).
  2:{ rewrite bind_lift_ok with (a := true); [reflexivity |].
      unfold Py.contains, Py.dict_has. now rewrite Hbuilds. }
  rewrite (bind_lift_ok _ _ _ _ Hget).
  rewrite bind_lift_ok with (a := before ++ PDict d :: after) by reflexivity.
  apply bind_err. rewrite for_each_app.
  rewrite (bind_ok _ _ _ _ _ (check_builds_run ds before [] t Hbefore)).
  simpl for_each. apply bind_err. unfold check_build.
  apply bind_lift_err. unfold Py.getitem. now rewrite Htype.
Qed.

(** X8: the exit on missing files is not an error of the handler.
    With a valid environment, a well-formed configuration with a pattern
    that matches nothing makes [main] print the heading and the entries
    and end with [SystemExit(1)]; the [except Exception] clause does not
    catch it, so no "Error:" line follows. *)
Theorem missing_files_exit_uncaught (config_file : string)
    (m : list (string * pyval)) (items : list pyval) (ds : list descriptor)
    (reporter : KetryxReporter) (t : list event) :
  load_yaml config_file = inr (PDict m) ->
  Py.dict_get m "builds" = Some (PList items) ->
  Forall2 describes ds items ->
  missing_entries ds <> [] ->
  required_env env_config = true ->
  KetryxReporter_init env_config = inr reporter ->
  main config_file t =
    (t ++ Out (nl +++ "Missing files:")
       :: map (fun e => Out ("  - " +++ e)) (missing_entries ds),
     inl (SystemExit 1)).
Proof.
  intros Hload Hbuilds Hall Hmissing Henv Hinit.
  pose proof (process_build_config_run _ _ _ _ t Hload Hbuilds Hall) as Hrun.
  destruct (missing_entries ds) as [|e entries]; [contradiction |].
  rewrite (main_env_accepted _ _ Henv), (bind_lift_ok _ _ _ _ Hinit).
  unfold run_builds, try_except. now rewrite (bind_err _ _ _ _ _ Hrun).
Qed.

End Loader.

(** ** The uploads and the record of one build entry *)

Section Entries.

Context {W : World}.

Lemma upload_sbom_run self patterns sbom_type t :
  let run := upload_sbom self (str_list patterns) sbom_type t in
  let items := matched_items "application/json" (py_str sbom_type +++ "-json") patterns in
  exists evs,
    fst run = t ++ evs /\
    match snd run with
    | inr v => exists artifacts, v = PList artifacts /\ uploaded self items evs artifacts
    | inl _ => exists rest, map (item_request self) items = requests_of evs ++ rest
    end.
Proof.
  cbv zeta. unfold upload_sbom. rewrite matched_items_flat.
  destruct (upload_files_run self "application/json" (py_str sbom_type +++ "-json")
              (flat_map glob patterns) [] t) as (evs & Ht & Hres).
  rewrite <- upload_matches_flat in Ht, Hres.
  destruct (upload_matches self "application/json" (py_str sbom_type +++ "-json")
              (str_list patterns) [] t) as [t1 [e|artifacts]] eqn:Hrun;
    simpl in Ht, Hres; subst t1.
  - rewrite (bind_err _ _ _ _ _ Hrun). exists evs. now split.
  - rewrite (bind_ok _ _ _ _ _ Hrun). exists evs. split; [reflexivity |].
    destruct Hres as (new & -> & Hup). now exists new.
Qed.

Lemma upload_sbom_accepted self authorization patterns sbom_type t :
  all_readable -> accepts_uploads ->
  Py.dict_get (headers self) "Authorization" = Some authorization ->
  exists evs artifacts,
    upload_sbom self (str_list patterns) sbom_type t =
      (t ++ evs, inr (PList artifacts)) /\
    uploaded self
      (matched_items "application/json" (py_str sbom_type +++ "-json") patterns)
      evs artifacts.
Proof.
  intros Hopen Huploads Hauth. unfold upload_sbom. rewrite matched_items_flat.
  destruct (upload_files_accepted self authorization "application/json"
              (py_str sbom_type +++ "-json") (flat_map glob patterns) [] t
              Hopen Huploads Hauth) as (evs & new & Hrun & Hup).
  rewrite <- upload_matches_flat in Hrun. rewrite (bind_ok _ _ _ _ _ Hrun).
  now exists evs, new.
Qed.

(** X9: on a list of pattern strings, [upload_sbom] posts one upload
    per matched file, patterns in the given order and files in match
    order, each as "application/json".  When every file opens and the
    service accepts every upload, it uploads all of them and returns,
    in that order, one entry per file with the id the service answered
    and the tag "<sbom_type>-json".  Whatever the service answers: when
    it returns, every one of the uploads was posted and accepted and the
    result is that list; when it raises, the uploads posted are an
    initial segment of that sequence.  Without a matched file it returns
    the empty list and posts nothing. *)
Theorem sbom_upload_order (self : KetryxReporter) (patterns : list string)
    (sbom_type : pyval) (t : list event) :
  let run := upload_sbom self (str_list patterns) sbom_type t in
  let items := matched_items "application/json" (py_str sbom_type +++ "-json") patterns in
  (forall authorization,
     all_readable -> accepts_uploads ->
     Py.dict_get (headers self) "Authorization" = Some authorization ->
     exists evs artifacts,
       run = (t ++ evs, inr (PList artifacts)) /\
       uploaded self items evs artifacts) /\
  (exists evs,
     fst run = t ++ evs /\
     match snd run with
     | inr v => exists artifacts, v = PList artifacts /\ uploaded self items evs artifacts
     | inl _ => exists rest, map (item_request self) items = requests_of evs ++ rest
     end) /\
  (items = [] -> run = (t, inr (PList []))).
Proof.
  cbv zeta. split; [| split].
  - intros authorization Hopen Huploads Hauth.
    now apply upload_sbom_accepted with (authorization := authorization).
  - apply upload_sbom_run.
  - rewrite matched_items_flat. intros Hnone. apply map_eq_nil in Hnone.
    unfold upload_sbom. erewrite bind_ok; [reflexivity |].
    rewrite upload_matches_flat, Hnone. reflexivity.
Qed.

(** Once the upload branch has bound [artifacts] and the entry has a
    name, the loop body posts the build record of that name with those
    artifacts. *)
Lemma main_body_reports reporter build previous t t1 name bound :
  upload_build reporter build previous t = (t1, inr (Some bound, true)) ->
  Py.getitem build "name" = inr name ->
  let req := ReportReq (base_url reporter +++ "/api/v1/builds") (headers reporter)
               (report_data reporter name bound) in
  exists evs,
    fst (main_body reporter build previous t) = t1 ++ Post req (server t1 req) :: evs.
Proof.
  intros Hup Hname req. unfold main_body.
  rewrite (bind_ok _ _ _ _ _ Hup). cbn [fst snd].
  destruct (report_and_confirm_posts reporter build name bound t1 Hname) as (evs & Hevs).
  exists evs. unfold bind.
  destruct (report_and_confirm reporter build (Some bound) t1) as [t2 [e|[]]]; exact Hevs.
Qed.

Lemma upload_build_test_results reporter d spec junit cucumber previous t :
  Py.dict_get d "type" = Some (PStr "test-results") ->
  Py.dict_get d "artifacts" = Some (PDict spec) ->
  Py.dict_get spec "junit" = option_map str_list junit ->
  Py.dict_get spec "cucumber" = option_map str_list cucumber ->
  upload_build reporter (PDict d) previous t =
  (uploaded <- upload_test_results reporter (str_list (opt_list junit))
                 (str_list (opt_list cucumber)) ;;
   ret (Some uploaded, true)) t.
Proof.
  intros Htype Hspec Hj Hc. unfold upload_build.
  erewrite bind_lift_ok by (unfold Py.getitem; now rewrite Htype).
  change (Py.eq_str (PStr "test-results") "test-results") with true. cbv iota.
  assert (Hget : Py.getitem (PDict d) "artifacts" = inr (PDict spec)).
  { unfold Py.getitem. now rewrite Hspec. }
  rewrite (bind_lift_ok _ _ _ _ Hget).
  rewrite (bind_lift_ok _ _ _ _ (get_paths _ _ _ Hj)).
  rewrite (bind_lift_ok _ _ _ _ Hget).
  rewrite (bind_lift_ok _ _ _ _ (get_paths _ _ _ Hc)).
  reflexivity.
Qed.

(** X10: a test-results entry is reported with exactly what it
    uploaded.  When [upload_test_results] returns for the entry's junit
    and cucumber patterns (an absent list counting as empty), the next
    event is the build record of the entry's name whose artifacts are
    the returned list, whatever [artifacts] held from earlier entries;
    when it raises, the loop body raises the same with no record. *)
Theorem test_results_entry_reports_its_uploads (reporter : KetryxReporter)
    (name : string) (junit cucumber : option (list string)) (v : pyval)
    (previous : option pyval) (t : list event) :
  describes (TestResults name junit cucumber) v ->
  let run := upload_test_results reporter (str_list (opt_list junit))
               (str_list (opt_list cucumber)) t in
  match snd run with
  | inr uploaded =>
      let req := ReportReq (base_url reporter +++ "/api/v1/builds") (headers reporter)
                   (report_data reporter (PStr name) uploaded) in
      Py.dict_get (report_data reporter (PStr name) uploaded) "artifacts" = Some uploaded /\
      exists evs,
        fst (main_body reporter v previous t) =
        fst run ++ Post req (server (fst run) req) :: evs
  | inl e => main_body reporter v previous t = (fst run, inl e)
  end.
Proof.
  intros Hd. inversion Hd as [n j c d spec Hname Htype Hspec Hj Hc | |]; subst.
  cbv zeta.
  pose proof (upload_build_test_results reporter d spec junit cucumber previous t
                Htype Hspec Hj Hc) as Hup.
  destruct (upload_test_results reporter (str_list (opt_list junit))
              (str_list (opt_list cucumber)) t) as [t1 [e|uploaded]] eqn:Hrun; simpl.
  - unfold main_body. rewrite (bind_err _ _ _ _ _ Hrun) in Hup.
    now rewrite (bind_err _ _ _ _ _ Hup).
  - rewrite (bind_ok _ _ _ _ _ Hrun) in Hup. split.
    + unfold report_data.
      destruct (Py.truthy_opt (version (config reporter)));
        [| destruct (Py.truthy_opt (commit_sha (config reporter)))]; reflexivity.
    + apply (main_body_reports _ _ _ _ _ (PStr name) uploaded Hup).
      unfold Py.getitem. now rewrite Hname.
Qed.

(** X11: the name of a build entry is read only after its uploads.  A
    test-results entry without a [name] key is validated like any other
    (its name is not looked at); in the loop its files are uploaded, and
    then [build['name']] raises [KeyError('name')]: no record is posted
    for the uploads. *)
Theorem entry_without_name_uploads_then_fails (reporter : KetryxReporter)
    (d spec : list (string * pyval)) (junit cucumber : option (list string))
    (previous : option pyval) (missing : list string) (t : list event) :
  Py.dict_get d "name" = None ->
  Py.dict_get d "type" = Some (PStr "test-results") ->
  Py.dict_get d "artifacts" = Some (PDict spec) ->
  Py.dict_get spec "junit" = option_map str_list junit ->
  Py.dict_get spec "cucumber" = option_map str_list cucumber ->
  let run := upload_test_results reporter (str_list (opt_list junit))
               (str_list (opt_list cucumber)) t in
  check_build (PDict d) missing t =
    (t, inr (missing ++ missing_entries [TestResults "" junit cucumber])) /\
  main_body reporter (PDict d) previous t =
    (fst run, match snd run with
              | inr _ => inl (KeyError "name")
              | inl e => inl e
              end).
Proof.
  intros Hname Htype Hspec Hj Hc run. split.
  - unfold missing_entries. simpl flat_map. rewrite app_nil_r.
    unfold check_build.
    erewrite bind_lift_ok by (unfold Py.getitem; now rewrite Htype).
    change (Py.eq_str (PStr "test-results") "test-results") with true. cbv iota.
    assert (Hget : Py.getitem (PDict d) "artifacts" = inr (PDict spec)).
    { unfold Py.getitem. now rewrite Hspec. }
    rewrite (bind_lift_ok _ _ _ _ Hget).
    rewrite (bind_lift_ok _ _ _ _ (get_paths _ _ _ Hj)).
    rewrite (bind_ok _ _ _ _ _ (check_paths_run _ _ _ _)).
    rewrite (bind_lift_ok _ _ _ _ Hget).
    rewrite (bind_lift_ok _ _ _ _ (get_paths _ _ _ Hc)).
    rewrite check_paths_run. simpl patterns_of.
    rewrite filter_app, map_app.
    rewrite (filter_labelled "JUnit" (fun p => p)).
    rewrite (filter_labelled "Cucumber" (fun p => p)).
    now rewrite !map_id, app_assoc.
  - pose proof (upload_build_test_results reporter d spec junit cucumber previous t
                  Htype Hspec Hj Hc) as Hup.
    subst run. unfold main_body.
    destruct (upload_test_results reporter (str_list (opt_list junit))
                (str_list (opt_list cucumber)) t) as [t1 [e|uploaded]] eqn:Hrun; simpl.
    + rewrite (bind_err _ _ _ _ _ Hrun) in Hup. now rewrite (bind_err _ _ _ _ _ Hup).
    + rewrite (bind_ok _ _ _ _ _ Hrun) in Hup.
      rewrite (bind_ok _ _ _ _ _ Hup). cbn [fst snd].
      erewrite bind_err; [reflexivity |].
      unfold report_and_confirm. apply bind_lift_err.
      unfold Py.getitem. now rewrite Hname.
Qed.

(** One pass of the loop over the artifact entries of an sbom build. *)
Lemma sbom_step reporter a v t :
  sbom_entry a v ->
  let run :=
    (file <- lift (Py.getitem v "file") ;;
     sbom_type <- lift (Py.getitem v "type") ;;
     uploaded <- upload_sbom reporter (PList [file]) sbom_type ;;
     ret (Some uploaded)) t in
  exists evs,
    fst run = t ++ evs /\
    match snd run with
    | inr bound =>
        exists artifacts,
          uploaded reporter (sbom_items [a]) evs artifacts /\
          bound = Some (PList artifacts)
    | inl _ => exists rest, map (item_request reporter) (sbom_items [a]) =
                            requests_of evs ++ rest
    end.
Proof.
  intros (e & -> & Hfile & Htype) run. subst run.
  erewrite bind_lift_ok by (unfold Py.getitem; now rewrite Hfile).
  erewrite bind_lift_ok by (unfold Py.getitem; now rewrite Htype).
  unfold sbom_items. simpl flat_map. rewrite app_nil_r.
  destruct (upload_sbom_run reporter [fst a] (PStr (snd a)) t) as (evs & Ht & Hres).
  change (str_list [fst a]) with (PList [PStr (fst a)]) in Ht, Hres.
  change (py_str (PStr (snd a))) with (snd a) in Hres.
  destruct (upload_sbom reporter (PList [PStr (fst a)]) (PStr (snd a)) t)
    as [t1 [err|uploaded]] eqn:Hrun; simpl in Ht, Hres; subst t1.
  - rewrite (bind_err _ _ _ _ _ Hrun). exists evs. now split.
  - rewrite (bind_ok _ _ _ _ _ Hrun). exists evs. split; [reflexivity |].
    destruct Hres as (artifacts & -> & Hup). now exists artifacts.
Qed.

Lemma sbom_items_app l1 l2 : sbom_items (l1 ++ l2) = sbom_items l1 ++ sbom_items l2.
Proof. unfold sbom_items. apply flat_map_app. Qed.

(** The loop over the artifact entries: every entry's matches are
    uploaded in order. *)
Lemma sbom_loop reporter entries items :
  Forall2 sbom_entry entries items ->
  forall previous t,
  let run :=
    for_each (fun artifact (artifacts : option pyval) =>
        file <- lift (Py.getitem artifact "file") ;;
        sbom_type <- lift (Py.getitem artifact "type") ;;
        uploaded <- upload_sbom reporter (PList [file]) sbom_type ;;
        ret (Some uploaded))
      items previous t in
  exists evs,
    fst run = t ++ evs /\
    match snd run with
    | inr _ => exists artifacts, uploaded reporter (sbom_items entries) evs artifacts
    | inl _ => exists rest, map (item_request reporter) (sbom_items entries) =
                            requests_of evs ++ rest
    end.
Proof.
  induction 1 as [|a v entries items Ha _ IH]; intros previous t; cbv zeta.
  - simpl. exists []. split; [now rewrite app_nil_r | exists []; constructor].
  - simpl for_each.
    destruct (sbom_step reporter a v t Ha) as (evs1 & Ht1 & Hres1).
    cbv zeta in Ht1, Hres1.
    change (a :: entries) with ([a] ++ entries). rewrite sbom_items_app.
    destruct ((file <- lift (Py.getitem v "file") ;;
               sbom_type <- lift (Py.getitem v "type") ;;
               uploaded <- upload_sbom reporter (PList [file]) sbom_type ;;
               ret (Some uploaded)) t) as [t1 [e|bound]] eqn:Hstep;
      simpl in Ht1, Hres1; subst t1.
    + rewrite (bind_err _ _ _ _ _ Hstep). exists evs1. split; [reflexivity |]. simpl.
      destruct Hres1 as (rest & Hrest). rewrite map_app, Hrest, <- app_assoc.
      eexists. reflexivity.
    + rewrite (bind_ok _ _ _ _ _ Hstep).
      destruct Hres1 as (arts1 & Hup1 & _).
      destruct (IH bound (t ++ evs1)) as (evs2 & Ht2 & Hres2).
      exists (evs1 ++ evs2). split; [rewrite Ht2; now rewrite app_assoc |].
      destruct (snd (for_each _ items bound (t ++ evs1))) as [e|bound'].
      * destruct Hres2 as (rest & Hrest). exists rest.
        rewrite map_app, Hrest, requests_of_app, <- app_assoc.
        now rewrite (uploaded_requests _ _ _ _ Hup1).
      * destruct Hres2 as (arts2 & Hup2). exists (arts1 ++ arts2).
        now apply uploaded_app.
Qed.

(** Whatever the service answers, for an sbom build with at least one
    artifact entry: when the upload branch returns, every entry's
    matches were uploaded and [artifacts] holds those of the last entry,
    which the record posted next carries; when it raises, the uploads
    posted are an initial segment. *)
Lemma sbom_entry_run (reporter : KetryxReporter)
    (name : string) (init : list (string * string)) (final : string * string)
    (v : pyval) (previous : option pyval) (t : list event) :
  describes (Sbom name (init ++ [final])) v ->
  let run := upload_build reporter v previous t in
  exists evs,
    fst run = t ++ evs /\
    match snd run with
    | inr _ =>
        exists evs1 evs2 arts1 arts2 more,
          evs = evs1 ++ evs2 /\
          uploaded reporter (sbom_items init) evs1 arts1 /\
          uploaded reporter (sbom_items [final]) evs2 arts2 /\
          snd run = inr (Some (PList arts2), true) /\
          let req := ReportReq (base_url reporter +++ "/api/v1/builds")
                       (headers reporter)
                       (report_data reporter (PStr name) (PList arts2)) in
          fst (main_body reporter v previous t) =
          fst run ++ Post req (server (fst run) req) :: more
    | inl _ => exists rest, map (item_request reporter) (sbom_items (init ++ [final])) =
                            requests_of evs ++ rest
    end.
Proof.
  intros Hd. inversion Hd as [| n entries d items Hname Htype Hspec Hitems |]; subst.
  apply Forall2_app_inv_l in Hitems as (items1 & items2 & Hinit & Hfinal & ->).
  inversion Hfinal as [| a v2 l l' Hlast Hnil]; subst. inversion Hnil; subst.
  cbv zeta.
  assert (Hup : upload_build reporter (PDict d) previous t =
    (artifacts <- for_each (fun artifact (artifacts : option pyval) =>
        file <- lift (Py.getitem artifact "file") ;;
        sbom_type <- lift (Py.getitem artifact "type") ;;
        uploaded <- upload_sbom reporter (PList [file]) sbom_type ;;
        ret (Some uploaded)) (items1 ++ [v2]) previous ;;
     ret (artifacts, true)) t).
  { unfold upload_build.
    erewrite bind_lift_ok by (unfold Py.getitem; now rewrite Htype).
    change (Py.eq_str (PStr "sbom") "test-results") with false.
    change (Py.eq_str (PStr "sbom") "sbom") with true. cbv iota.
    erewrite bind_lift_ok by (unfold Py.getitem; now rewrite Hspec).
    now rewrite bind_lift_ok with (a := items1 ++ [v2]) by reflexivity. }
  destruct (sbom_loop reporter init items1 Hinit previous t) as (evs1 & Ht1 & Hres1).
  cbv zeta in Ht1, Hres1.
  destruct (for_each _ items1 previous t) as [t1 [e|bound1]] eqn:Hloop;
    cbn [fst snd] in Ht1, Hres1; subst t1.
  - assert (Hall : for_each (fun artifact (artifacts : option pyval) =>
        file <- lift (Py.getitem artifact "file") ;;
        sbom_type <- lift (Py.getitem artifact "type") ;;
        uploaded <- upload_sbom reporter (PList [file]) sbom_type ;;
        ret (Some uploaded)) (items1 ++ [v2]) previous t = (t ++ evs1, inl e)).
    { rewrite for_each_app. now rewrite (bind_err _ _ _ _ _ Hloop). }
    rewrite (bind_err _ _ _ _ _ Hall) in Hup. rewrite Hup. cbn [fst snd].
    exists evs1. split; [reflexivity |].
    destruct Hres1 as (rest & Hrest). rewrite sbom_items_app, map_app, Hrest, <- app_assoc.
    eexists. reflexivity.
  - destruct Hres1 as (arts1 & Hup1).
    destruct (sbom_step reporter final v2 (t ++ evs1) Hlast)
      as (evs2 & Ht2 & Hres2).
    cbv zeta in Ht2, Hres2.
    destruct ((file <- lift (Py.getitem v2 "file") ;;
               sbom_type <- lift (Py.getitem v2 "type") ;;
               uploaded <- upload_sbom reporter (PList [file]) sbom_type ;;
               ret (Some uploaded)) (t ++ evs1)) as [t2 [e|bound2]] eqn:Hstep;
      cbn [fst snd] in Ht2, Hres2; subst t2.
    + assert (Hall : for_each (fun artifact (artifacts : option pyval) =>
          file <- lift (Py.getitem artifact "file") ;;
          sbom_type <- lift (Py.getitem artifact "type") ;;
          uploaded <- upload_sbom reporter (PList [file]) sbom_type ;;
          ret (Some uploaded)) (items1 ++ [v2]) previous t =
          ((t ++ evs1) ++ evs2, inl e)).
      { rewrite for_each_app, (bind_ok _ _ _ _ _ Hloop). simpl for_each.
        now rewrite (bind_err _ _ _ _ _ Hstep). }
      rewrite (bind_err _ _ _ _ _ Hall) in Hup. rewrite Hup. cbn [fst snd].
      exists (evs1 ++ evs2). split; [now rewrite app_assoc |].
      destruct Hres2 as (rest & Hrest). exists rest.
      rewrite sbom_items_app, map_app, Hrest, requests_of_app, <- app_assoc.
      now rewrite (uploaded_requests _ _ _ _ Hup1).
    + destruct Hres2 as (arts2 & Hup2 & ->).
      assert (Hall : for_each (fun artifact (artifacts : option pyval) =>
          file <- lift (Py.getitem artifact "file") ;;
          sbom_type <- lift (Py.getitem artifact "type") ;;
          uploaded <- upload_sbom reporter (PList [file]) sbom_type ;;
          ret (Some uploaded)) (items1 ++ [v2]) previous t =
          ((t ++ evs1) ++ evs2, inr (Some (PList arts2)))).
      { rewrite for_each_app, (bind_ok _ _ _ _ _ Hloop). simpl for_each.
        now rewrite (bind_ok _ _ _ _ _ Hstep). }
      rewrite (bind_ok _ _ _ _ _ Hall) in Hup.
      assert (Hgetname : Py.getitem (PDict d) "name" = inr (PStr name)).
      { unfold Py.getitem. now rewrite Hname. }
      destruct (main_body_reports reporter (PDict d) previous t _ (PStr name)
                  (PList arts2) Hup Hgetname) as (more & Hmore).
      rewrite Hup. cbn [fst snd].
      exists (evs1 ++ evs2). split; [now rewrite app_assoc |].
      exists evs1, evs2, arts1, arts2, more. now repeat split.
Qed.

Lemma upload_build_sbom reporter d items previous t :
  Py.dict_get d "type" = Some (PStr "sbom") ->
  Py.dict_get d "artifacts" = Some (PList items) ->
  upload_build reporter (PDict d) previous t =
  (artifacts <- for_each (fun artifact (artifacts : option pyval) =>
      file <- lift (Py.getitem artifact "file") ;;
      sbom_type <- lift (Py.getitem artifact "type") ;;
      uploaded <- upload_sbom reporter (PList [file]) sbom_type ;;
      ret (Some uploaded)) items previous ;;
   ret (artifacts, true)) t.
Proof.
  intros Htype Hspec. unfold upload_build.
  erewrite bind_lift_ok by (unfold Py.getitem; now rewrite Htype).
  change (Py.eq_str (PStr "sbom") "test-results") with false.
  change (Py.eq_str (PStr "sbom") "sbom") with true. cbv iota.
  erewrite bind_lift_ok by (unfold Py.getitem; now rewrite Hspec).
  now rewrite bind_lift_ok with (a := items) by reflexivity.
Qed.

Lemma sbom_step_accepted reporter authorization a v t :
  all_readable -> accepts_uploads ->
  Py.dict_get (headers reporter) "Authorization" = Some authorization ->
  sbom_entry a v ->
  exists evs artifacts,
    (file <- lift (Py.getitem v "file") ;;
     sbom_type <- lift (Py.getitem v "type") ;;
     uploaded <- upload_sbom reporter (PList [file]) sbom_type ;;
     ret (Some uploaded)) t = (t ++ evs, inr (Some (PList artifacts))) /\
    uploaded reporter (sbom_items [a]) evs artifacts.
Proof.
  intros Hopen Huploads Hauth (e & -> & Hfile & Htype).
  erewrite bind_lift_ok by (unfold Py.getitem; now rewrite Hfile).
  erewrite bind_lift_ok by (unfold Py.getitem; now rewrite Htype).
  unfold sbom_items. simpl flat_map. rewrite app_nil_r.
  destruct (upload_sbom_accepted reporter authorization [fst a] (PStr (snd a)) t
              Hopen Huploads Hauth) as (evs & artifacts & Hrun & Hup).
  change (str_list [fst a]) with (PList [PStr (fst a)]) in Hrun.
  change (py_str (PStr (snd a))) with (snd a) in Hup.
  rewrite (bind_ok _ _ _ _ _ Hrun). now exists evs, artifacts.
Qed.

Lemma sbom_loop_accepted reporter authorization entries items :
  all_readable -> accepts_uploads ->
  Py.dict_get (headers reporter) "Authorization" = Some authorization ->
  Forall2 sbom_entry entries items ->
  forall previous t,
  exists evs artifacts bound,
    for_each (fun artifact (artifacts : option pyval) =>
        file <- lift (Py.getitem artifact "file") ;;
        sbom_type <- lift (Py.getitem artifact "type") ;;
        uploaded <- upload_sbom reporter (PList [file]) sbom_type ;;
        ret (Some uploaded))
      items previous t = (t ++ evs, inr bound) /\
    uploaded reporter (sbom_items entries) evs artifacts.
Proof.
  intros Hopen Huploads Hauth.
  induction 1 as [|a v entries items Ha _ IH]; intros previous t.
  - exists [], [], previous. simpl. unfold ret. rewrite app_nil_r.
    split; [reflexivity | constructor].
  - simpl for_each.
    destruct (sbom_step_accepted reporter authorization a v t Hopen Huploads Hauth Ha)
      as (evs1 & arts1 & Hstep & Hup1).
    rewrite (bind_ok _ _ _ _ _ Hstep).
    destruct (IH (Some (PList arts1)) (t ++ evs1)) as (evs2 & arts2 & bound & Hloop & Hup2).
    exists (evs1 ++ evs2), (arts1 ++ arts2), bound. split.
    + rewrite Hloop. now rewrite app_assoc.
    + change (a :: entries) with ([a] ++ entries). rewrite sbom_items_app.
      now apply uploaded_app.
Qed.

(** X12: what an sbom build with at least one artifact entry uploads
    and what it reports.  When every file opens and the service accepts
    every upload, the matches of every entry are uploaded, entry by
    entry in file order, the upload branch returns with [artifacts]
    bound to the uploads of the last entry, and the build record posted
    next, under the entry's name, carries those; the uploads of the
    entries before it are in no record.  Whatever the service answers:
    when the upload branch returns, all of this has happened; when it
    raises, the uploads posted are an initial segment of the sequence. *)
Theorem sbom_entry_uploads_all_reports_last (reporter : KetryxReporter)
    (name : string) (init : list (string * string)) (final : string * string)
    (v : pyval) (previous : option pyval) (t : list event) :
  describes (Sbom name (init ++ [final])) v ->
  let run := upload_build reporter v previous t in
  (forall authorization,
     all_readable -> accepts_uploads ->
     Py.dict_get (headers reporter) "Authorization" = Some authorization ->
     exists evs1 evs2 arts1 arts2 more,
       run = (t ++ evs1 ++ evs2, inr (Some (PList arts2), true)) /\
       uploaded reporter (sbom_items init) evs1 arts1 /\
       uploaded reporter (sbom_items [final]) evs2 arts2 /\
       let req := ReportReq (base_url reporter +++ "/api/v1/builds")
                    (headers reporter)
                    (report_data reporter (PStr name) (PList arts2)) in
       fst (main_body reporter v previous t) =
       fst run ++ Post req (server (fst run) req) :: more) /\
  (exists evs,
    fst run = t ++ evs /\
    match snd run with
    | inr _ =>
        exists evs1 evs2 arts1 arts2 more,
          evs = evs1 ++ evs2 /\
          uploaded reporter (sbom_items init) evs1 arts1 /\
          uploaded reporter (sbom_items [final]) evs2 arts2 /\
          snd run = inr (Some (PList arts2), true) /\
          let req := ReportReq (base_url reporter +++ "/api/v1/builds")
                       (headers reporter)
                       (report_data reporter (PStr name) (PList arts2)) in
          fst (main_body reporter v previous t) =
          fst run ++ Post req (server (fst run) req) :: more
    | inl _ => exists rest, map (item_request reporter) (sbom_items (init ++ [final])) =
                            requests_of evs ++ rest
    end).
Proof.
  intros Hd. cbv zeta. split; [| now apply sbom_entry_run].
  intros authorization Hopen Huploads Hauth.
  inversion Hd as [| n entries d items Hname Htype Hspec Hitems |]; subst.
  apply Forall2_app_inv_l in Hitems as (items1 & items2 & Hinit & Hfinal & ->).
  inversion Hfinal as [| a v2 l l' Hlast Hnil]; subst. inversion Hnil; subst.
  destruct (sbom_loop_accepted reporter authorization init items1 Hopen Huploads Hauth
              Hinit previous t) as (evs1 & arts1 & bound1 & Hloop & Hup1).
  destruct (sbom_step_accepted reporter authorization final v2 (t ++ evs1)
              Hopen Huploads Hauth Hlast) as (evs2 & arts2 & Hstep & Hup2).
  assert (Hrun : upload_build reporter (PDict d) previous t =
                 (t ++ evs1 ++ evs2, inr (Some (PList arts2), true))).
  { rewrite (upload_build_sbom _ _ _ _ _ Htype Hspec).
    erewrite bind_ok; [reflexivity |].
    rewrite for_each_app, (bind_ok _ _ _ _ _ Hloop). simpl for_each.
    rewrite (bind_ok _ _ _ _ _ Hstep). unfold ret. now rewrite app_assoc. }
  assert (Hgetname : Py.getitem (PDict d) "name" = inr (PStr name)).
  { unfold Py.getitem. now rewrite Hname. }
  destruct (main_body_reports reporter (PDict d) previous t _ (PStr name)
              (PList arts2) Hrun Hgetname) as (more & Hmore).
  exists evs1, evs2, arts1, arts2, more. rewrite Hrun. now repeat split.
Qed.

End Entries.

(** ** Invariants of a whole run *)

Section RunInvariants.

Context {W : World}.

(** *** Any refused request ends the run *)

Lemma halts_app e1 e2 err :
  halts_after e1 None -> halts_after e2 err -> halts_after (e1 ++ e2) err.
Proof.
  induction e1 as [|ev e1 IH]; simpl; [auto |].
  destruct (post_rejected ev); [intros [_ H]; discriminate | auto].
Qed.

Lemma halts_last evs err pre ev post msg :
  halts_after evs err -> evs = pre ++ ev :: post -> post_rejected ev = Some msg ->
  post = [] /\ err = Some (Exception_ msg).
Proof.
  intros H ->. revert H. induction pre as [|x pre IH]; simpl; intros H Hrej.
  - now rewrite Hrej in H.
  - destruct (post_rejected x); [| auto].
    destruct H as [H _]. now destruct pre.
Qed.

Lemma halting_pure {A} (r : result A) : halting (lift r).
Proof. intros t. exists []. simpl. now rewrite app_nil_r. Qed.

Lemma halting_print line : halting (print line).
Proof. intros t. exists [Out line]. simpl. auto. Qed.

Lemma halting_bind {A B} (m : M A) (k : A -> M B) :
  halting m -> (forall a, halting (k a)) -> halting (bind m k).
Proof.
  intros Hm Hk t. destruct (Hm t) as (e1 & Ht & Hf). unfold bind.
  destruct (m t) as [t1 [e|a]]; simpl in *; subst t1.
  - now exists e1.
  - destruct (Hk a (t ++ e1)) as (e2 & Ht2 & Hf2).
    exists (e1 ++ e2). rewrite Ht2, app_assoc. split; [reflexivity |].
    now apply halts_app.
Qed.

Lemma halting_for_each {A S} (body : A -> S -> M S) l s :
  (forall x s, halting (body x s)) -> halting (for_each body l s).
Proof.
  intros Hbody. revert s. induction l as [|x l IH]; intros s; simpl.
  - apply (halting_pure (inr s)).
  - apply halting_bind; auto.
Qed.

Lemma halting_upload_artifact self file_path content_type :
  halting (upload_artifact self file_path content_type).
Proof.
  intros t. unfold upload_artifact, bind, lift, open_rb, http_post.
  destruct (fs_open file_path).
  { exists []. simpl. now rewrite app_nil_r. }
  destruct (Py.dict_get (headers self) "Authorization") as [a|].
  2:{ exists []. simpl. now rewrite app_nil_r. }
  exists [Post (upload_request self a file_path content_type)
               (server t (upload_request self a file_path content_type))].
  unfold upload_request.
  destruct (server t _) as [e|resp]; simpl; [now split |].
  destruct (status_code resp =? 200); simpl; [| now repeat split].
  destruct (json resp); simpl; now split.
Qed.

Lemma halting_report_build self build_name artifacts :
  halting (report_build self build_name artifacts).
Proof.
  intros t. rewrite report_build_run. eexists. split; [reflexivity |].
  destruct (server t _) as [e|resp]; simpl; [exact I |].
  destruct (status_code resp =? 200); simpl; [exact I | now split].
Qed.

Ltac halting_steps :=
  repeat first
    [ apply halting_pure
    | apply (halting_pure (inr _))
    | apply (halting_pure (inl _))
    | apply halting_print
    | apply halting_upload_artifact
    | apply halting_report_build
    | apply halting_for_each; intros
    | apply halting_bind; [| intros]
    | match goal with
      | |- halting (if ?b then _ else _) => destruct b
      | |- halting (match ?x with _ => _ end) => destruct x
      end ].

Lemma halting_main_loop reporter builds artifacts :
  halting (main_loop reporter builds artifacts).
Proof.
  unfold main_loop, main_body, upload_build, report_and_confirm,
    upload_test_results, upload_sbom, upload_matches, upload_one.
  halting_steps.
Qed.

Lemma halting_process_build_config config_file :
  halting (process_build_config config_file).
Proof. unfold process_build_config, check_build, check_paths. halting_steps. Qed.

Lemma run_builds_halts reporter config_file t :
  exists evs,
    fst (run_builds reporter config_file t) = t ++ evs /\
    forall pre ev post msg,
      evs = pre ++ ev :: post -> post_rejected ev = Some msg ->
      post = [Out ("Error: " +++ msg)] /\
      snd (run_builds reporter config_file t) = inl (Exception_ msg).
Proof.
  unfold run_builds, try_except.
  set (body := builds <- process_build_config config_file ;; _).
  assert (Hbody : halting body).
  { subst body. apply halting_bind; [apply halting_process_build_config | intros builds].
    apply halting_bind; [apply halting_pure | intros items].
    apply halting_bind; [apply halting_main_loop | intros _; apply (halting_pure (inr tt))]. }
  destruct (Hbody t) as (evs0 & Ht & Hstop).
  destruct (body t) as [t' [e|[]]]; simpl in Ht, Hstop; subst t'.
  - destruct (is_Exception e) eqn:Hexc.
    + exists (evs0 ++ [Out ("Error: " +++ err_str e)]). split.
      * unfold bind, print, raise. simpl. now rewrite app_assoc.
      * intros pre ev post msg Hsplit Hrej. symmetry in Hsplit.
        apply split_last in Hsplit as [[_ ->] | (post' & -> & ->)]; [discriminate |].
        destruct (halts_last _ _ _ _ _ _ Hstop eq_refl Hrej) as [-> Herr].
        injection Herr as ->. now split.
    + exists evs0. split; [reflexivity |].
      intros pre ev post msg Hsplit Hrej.
      destruct (halts_last _ _ _ _ _ _ Hstop Hsplit Hrej) as [_ Herr].
      injection Herr as ->. discriminate.
  - exists evs0. split; [reflexivity |].
    intros pre ev post msg Hsplit Hrej.
    destruct (halts_last _ _ _ _ _ _ Hstop Hsplit Hrej) as [_ Herr].
    discriminate.
Qed.

(** X13: a build record the service answers with a status other than
    200 is the last request of the run.  [report_build] raises an
    exception whose message is "Failed to report build: " followed by
    the body text; in every run of [main] the refused record is followed
    by nothing but the line "Error: Failed to report build: <body>", and
    the run ends with that exception: the entries after it are neither
    uploaded nor reported. *)
Theorem rejected_report_ends_run (config_file : string) (t : list event) :
  exists evs,
    fst (main config_file t) = t ++ evs /\
    forall pre url hdrs data resp post,
      evs = pre ++ Post (ReportReq url hdrs data) (inr resp) :: post ->
      status_code resp <> 200 ->
      post = [Out ("Error: Failed to report build: " +++ text resp)] /\
      snd (main config_file t) =
        inl (Exception_ ("Failed to report build: " +++ text resp)).
Proof.
  assert (Hnone : forall r : result unit,
            exists evs, fst (t, r) = t ++ evs /\
              forall pre url hdrs data resp post,
                evs = pre ++ Post (ReportReq url hdrs data) (inr resp) :: post ->
                status_code resp <> 200 ->
                post = [Out ("Error: Failed to report build: " +++ text resp)] /\
                snd (t, r) = inl (Exception_ ("Failed to report build: " +++ text resp))).
  { intros r. exists []. split; [simpl; now rewrite app_nil_r |].
    intros pre ? ? ? ? ? H. now destruct pre. }
  unfold main. destruct (negb (required_env env_config)); [apply Hnone |].
  unfold bind at 1, lift.
  destruct (KetryxReporter_init env_config) as [e|reporter]; [apply Hnone |].
  destruct (run_builds_halts reporter config_file t) as (evs & Ht & Hev).
  exists evs. split; [exact Ht |].
  intros pre url hdrs data resp post Hsplit Hne.
  apply (Hev pre _ post _ Hsplit). simpl.
  apply Z.eqb_neq in Hne. now rewrite Hne.
Qed.

End RunInvariants.

Section Addressing.

Context {W : World}.

(** *** Where the requests go *)

Lemma emits_pure {A} Q (r : result A) : emits Q (lift r).
Proof. intros t. exists []. simpl. now rewrite app_nil_r. Qed.

Lemma emits_print Q line : Q (Out line) -> emits Q (print line).
Proof. intros HQ t. exists [Out line]. simpl. auto. Qed.

Lemma emits_bind {A B} Q (m : M A) (k : A -> M B) :
  emits Q m -> (forall a, emits Q (k a)) -> emits Q (bind m k).
Proof.
  intros Hm Hk t. destruct (Hm t) as (e1 & Ht & Hf). unfold bind.
  destruct (m t) as [t1 [e|a]]; simpl in *; subst t1.
  - now exists e1.
  - destruct (Hk a (t ++ e1)) as (e2 & Ht2 & Hf2).
    exists (e1 ++ e2). rewrite Ht2, app_assoc. split; [reflexivity |].
    apply Forall_app. now split.
Qed.

(** The continuation of a pure step is run on its value only. *)
Lemma emits_bind_pure {A B} Q (r : result A) (k : A -> M B) :
  (forall a, r = inr a -> emits Q (k a)) -> emits Q (bind (lift r) k).
Proof.
  intros Hk. destruct r as [e|a].
  - intros t. exists []. simpl. now rewrite app_nil_r.
  - intros t. destruct (Hk a eq_refl t) as (evs & Ht & HQ). now exists evs.
Qed.

Lemma emits_for_each {A S} Q (body : A -> S -> M S) l s :
  (forall x s, In x l -> emits Q (body x s)) -> emits Q (for_each body l s).
Proof.
  revert s. induction l as [|x l IH]; intros s Hbody; simpl.
  - apply (emits_pure Q (inr s)).
  - apply emits_bind; [apply Hbody; now left |].
    intros s'. apply IH. intros y s0 Hy. apply Hbody. now right.
Qed.

Lemma emits_weaken {A} (Q1 Q2 : event -> Prop) (m : M A) :
  (forall ev, Q1 ev -> Q2 ev) -> emits Q1 m -> emits Q2 m.
Proof.
  intros Himp Hm t. destruct (Hm t) as (evs & Ht & HQ).
  exists evs. split; [assumption |]. eapply Forall_impl; eauto.
Qed.

Lemma upload_of_weaken self (f1 f2 c1 c2 : string -> Prop) ev :
  (forall x, f1 x -> f2 x) -> (forall x, c1 x -> c2 x) ->
  upload_of self f1 c1 ev -> upload_of self f2 c2 ev.
Proof.
  intros Hf Hc. destruct ev as [line|[url proj auth fn fp ct|url hdrs data] res]; simpl; auto.
  intros (H1 & H2 & H3 & H4 & H5 & H6). repeat split; auto.
Qed.

(** One upload posts at most the request of its file, to the artifact
    endpoint of the reporter. *)
Lemma emits_upload_artifact self file_path content_type :
  emits (upload_of self (eq file_path) (eq content_type))
        (upload_artifact self file_path content_type).
Proof.
  intros t. unfold upload_artifact, bind, lift, open_rb, http_post.
  destruct (fs_open file_path).
  { exists []. simpl. now rewrite app_nil_r. }
  destruct (Py.dict_get (headers self) "Authorization") as [a|] eqn:Hauth.
  2:{ exists []. simpl. now rewrite app_nil_r. }
  exists [Post (upload_request self a file_path content_type)
               (server t (upload_request self a file_path content_type))].
  split.
  - destruct (server t _) as [e|resp]; simpl; [reflexivity |].
    destruct (negb (status_code resp =? 200)); simpl; [reflexivity |].
    now destruct (json resp).
  - constructor; [| constructor]. unfold upload_request. simpl. now repeat split.
Qed.

Lemma emits_upload_matches self content_type tag paths artifacts :
  emits (upload_of self matched (eq content_type))
        (upload_matches self content_type tag paths artifacts).
Proof.
  unfold upload_matches. apply emits_bind; [apply emits_pure | intros patterns].
  apply emits_for_each. intros pattern arts _.
  apply emits_bind_pure. intros files Hfiles.
  apply emits_for_each. intros file arts' Hin.
  unfold upload_one. apply emits_bind; [| intros; apply (emits_pure _ (inr _))].
  eapply emits_weaken; [| apply emits_upload_artifact].
  intros ev. apply upload_of_weaken; [| auto].
  intros x <-. destruct pattern; try discriminate.
  injection Hfiles as <-. now exists s.
Qed.

End Addressing.

Section Requests.

Context {W : World}.

Lemma upload_of_addressed self ev :
  upload_of self matched xml_or_json ev -> addressed self ev.
Proof.
  destruct ev as [line|[url proj auth fn fp ct|url hdrs data] res]; simpl; tauto.
Qed.

Lemma emits_upload_build reporter build artifacts :
  emits (upload_of reporter matched xml_or_json) (upload_build reporter build artifacts).
Proof.
  assert (Hmatches : forall content_type tag paths arts,
            xml_or_json content_type ->
            emits (upload_of reporter matched xml_or_json)
                  (upload_matches reporter content_type tag paths arts)).
  { intros content_type tag paths arts Hct.
    eapply emits_weaken; [| apply emits_upload_matches].
    intros ev. apply upload_of_weaken; [auto | now intros x <-]. }
  unfold upload_build, upload_test_results, upload_sbom.
  repeat first
    [ apply emits_pure
    | apply (emits_pure _ (inr _))
    | apply emits_print; exact I
    | solve [apply Hmatches; unfold xml_or_json; auto]
    | apply emits_for_each; intros
    | apply emits_bind; [| intros]
    | match goal with
      | |- emits _ (if ?b then _ else _) => destruct b
      end ].
Qed.

Lemma emits_report_and_confirm reporter build artifacts :
  emits (addressed reporter) (report_and_confirm reporter build artifacts).
Proof.
  unfold report_and_confirm.
  apply emits_bind; [apply emits_pure | intros name].
  apply emits_bind; [apply emits_pure | intros uploaded].
  apply emits_bind.
  - intros t. rewrite report_build_run. eexists. split; [reflexivity |].
    constructor; [| constructor]. simpl. repeat split.
    unfold report_data.
    destruct (Py.truthy_opt (version (config reporter)));
      [| destruct (Py.truthy_opt (commit_sha (config reporter)))]; reflexivity.
  - intros build_result.
    apply emits_bind; [apply emits_pure | intros name'].
    apply emits_bind; [apply emits_pure | intros build_id].
    apply emits_print. exact I.
Qed.

Lemma emits_main_loop reporter builds artifacts :
  emits (addressed reporter) (main_loop reporter builds artifacts).
Proof.
  unfold main_loop. apply emits_for_each. intros build arts _. unfold main_body.
  apply emits_bind.
  - eapply emits_weaken; [apply upload_of_addressed | apply emits_upload_build].
  - intros step. destruct (snd step); [| apply (emits_pure _ (inr _))].
    apply emits_bind; [apply emits_report_and_confirm | intros; apply (emits_pure _ (inr _))].
Qed.

Lemma emits_process_build_config reporter config_file :
  emits (addressed reporter) (process_build_config config_file).
Proof.
  unfold process_build_config, check_build, check_paths.
  repeat first
    [ apply emits_pure
    | apply (emits_pure _ (inr _))
    | apply (emits_pure _ (inl _))
    | apply emits_print; exact I
    | apply emits_for_each; intros
    | apply emits_bind; [| intros]
    | match goal with
      | |- emits _ (if ?b then _ else _) => destruct b
      | |- emits _ (match ?x with _ => _ end) => destruct x
      end ].
Qed.

(** X14: where the requests of a run go.  Every request [main] posts is
    one of the reporter built from the environment.  An upload goes to
    the artifact endpoint under the stripped base URL, with the
    configured project as query parameter and the bearer token as its
    only header, for a file that some glob pattern matches, named by its
    base name, as "application/xml" or "application/json" (never the
    default media type of [upload_artifact]).  A build record goes to
    the builds endpoint with the reporter's two headers and the
    configured project in its payload. *)
Theorem requests_are_addressed (config_file : string) (t : list event) :
  exists evs,
    fst (main config_file t) = t ++ evs /\
    forall reporter,
      KetryxReporter_init env_config = inr reporter ->
      Forall (addressed reporter) evs.
Proof.
  unfold main. destruct (negb (required_env env_config)).
  { exists []. split; [simpl; now rewrite app_nil_r | constructor]. }
  unfold bind at 1, lift.
  destruct (KetryxReporter_init env_config) as [e|reporter].
  { exists []. split; [simpl; now rewrite app_nil_r | constructor]. }
  assert (Hbody : emits (addressed reporter)
            (builds <- process_build_config config_file ;;
             items <- lift (Py.iter builds) ;;
             main_loop reporter items None ;;;
             ret tt)).
  { apply emits_bind; [apply emits_process_build_config | intros builds].
    apply emits_bind; [apply emits_pure | intros items].
    apply emits_bind; [apply emits_main_loop | intros; apply (emits_pure _ (inr tt))]. }
  unfold run_builds, try_except.
  destruct (Hbody t) as (evs & Ht & HQ).
  destruct ((builds <- process_build_config config_file ;;
             items <- lift (Py.iter builds) ;;
             main_loop reporter items None ;;;
             ret tt) t) as [t' [e|[]]]; simpl in Ht; subst t'.
  - destruct (is_Exception e).
    + exists (evs ++ [Out ("Error: " +++ err_str e)]). split.
      * unfold bind, print, raise. simpl. now rewrite app_assoc.
      * intros r Hr. injection Hr as <-. apply Forall_app. split; [assumption |].
        constructor; [exact I | constructor].
    + exists evs. split; [reflexivity |]. intros r Hr. now injection Hr as <-.
  - exists evs. split; [reflexivity |]. intros r Hr. now injection Hr as <-.
Qed.

(** *** How many records *)

Lemma uploads_hold_no_report self ok_file ok_type evs :
  Forall (upload_of self ok_file ok_type) evs -> count_reports evs = O.
Proof.
  induction 1 as [|ev evs Hev _ IH]; simpl; [reflexivity |].
  destruct ev as [line|[url proj auth fn fp ct|url hdrs data] res]; simpl in *;
    [assumption | assumption | contradiction].
Qed.

Lemma count_reports_app t1 t2 :
  count_reports (t1 ++ t2) = (count_reports t1 + count_reports t2)%nat.
Proof.
  induction t1 as [|[line|[url proj auth fn fp ct|url hdrs data] res] t1 IH];
    simpl; auto.
Qed.

Lemma report_and_confirm_once reporter build artifacts t :
  exists evs,
    fst (report_and_confirm reporter build artifacts t) = t ++ evs /\
    (count_reports evs <= 1)%nat.
Proof.
  unfold report_and_confirm.
  destruct (Py.getitem build "name") as [e|name] eqn:Hname.
  { rewrite (bind_lift_err _ _ _ _ eq_refl).
    exists []. simpl. split; [now rewrite app_nil_r | lia]. }
  rewrite (bind_lift_ok _ _ _ _ eq_refl).
  destruct artifacts as [uploaded|].
  2:{ rewrite (bind_lift_err _ _ _ _ eq_refl).
      exists []. simpl. split; [now rewrite app_nil_r | lia]. }
  rewrite (bind_lift_ok _ _ _ _ eq_refl).
  pose proof (report_build_run reporter name uploaded t) as Hrep. cbv zeta in Hrep.
  set (req := ReportReq _ _ _) in Hrep.
  destruct (match server t req with
            | inl e => inl e
            | inr resp => if status_code resp =? 200 then json resp
                          else inl (Exception_ ("Failed to report build: " +++ text resp))
            end) as [e|build_result].
  { rewrite (bind_err _ _ _ _ _ Hrep).
    exists [Post req (server t req)]. split; [reflexivity | simpl; lia]. }
  rewrite (bind_ok _ _ _ _ _ Hrep).
  rewrite (bind_lift_ok _ _ _ _ eq_refl).
  destruct (Py.get build_result "buildId" PNone) as [e|build_id] eqn:Hid.
  - rewrite (bind_lift_err _ _ _ _ eq_refl).
    exists [Post req (server t req)]. split; [reflexivity | simpl; lia].
  - rewrite (bind_lift_ok _ _ _ _ eq_refl). unfold print. simpl fst.
    eexists. split; [now rewrite <- app_assoc | simpl; lia].
Qed.

(** X15: at most one build record per build entry.  Whatever the
    entries hold and however the service answers, the loop of [main]
    posts no more build records than there are entries. *)
Theorem at_most_one_report_per_entry (reporter : KetryxReporter)
    (builds : list pyval) (artifacts : option pyval) (t : list event) :
  exists evs,
    fst (main_loop reporter builds artifacts t) = t ++ evs /\
    (count_reports evs <= length builds)%nat.
Proof.
  revert artifacts t. induction builds as [|build builds IH]; intros artifacts t.
  - exists []. simpl. split; [now rewrite app_nil_r | lia].
  - assert (Hbody : exists evs,
              fst (main_body reporter build artifacts t) = t ++ evs /\
              (count_reports evs <= 1)%nat).
    { unfold main_body.
      destruct (emits_upload_build reporter build artifacts t) as (evs1 & Ht1 & HQ).
      apply uploads_hold_no_report in HQ.
      unfold bind at 1.
      destruct (upload_build reporter build artifacts t) as [t1 [e|step]];
        simpl in Ht1; subst t1.
      { exists evs1. split; [reflexivity | lia]. }
      destruct (snd step).
      - destruct (report_and_confirm_once reporter build (fst step) (t ++ evs1))
          as (evs2 & Ht2 & Hle).
        exists (evs1 ++ evs2). unfold bind.
        destruct (report_and_confirm reporter build (fst step) (t ++ evs1))
          as [t2 [e|[]]]; simpl in Ht2; subst t2; simpl;
          (split; [now rewrite app_assoc | rewrite count_reports_app; lia]).
      - exists evs1. split; [reflexivity | lia]. }
    destruct Hbody as (evs1 & Ht1 & Hle1).
    unfold main_loop in *. simpl for_each. unfold bind at 1.
    destruct (main_body reporter build artifacts t) as [t1 [e|artifacts']];
      simpl in Ht1; subst t1.
    + exists evs1. split; [reflexivity | simpl; lia].
    + destruct (IH artifacts' (t ++ evs1)) as (evs2 & Ht2 & Hle2).
      exists (evs1 ++ evs2). rewrite Ht2, app_assoc. split; [reflexivity |].
      rewrite count_reports_app. simpl. lia.
Qed.

End Requests.

(** ** The further properties at concrete inputs *)

(** X1 at the demo environment, whose base URL ends in one slash. *)
Lemma init_strips_trailing_slashes_witness :
  exists reporter k,
    KetryxReporter_init (@env_config Demo.world) = inr reporter /\
    config reporter = @env_config Demo.world /\
    "https://ketryx.example/" = base_url reporter +++ slashes k /\
    ends_with_slash (base_url reporter) = false /\
    headers reporter =
      [("Authorization", "Bearer " +++ Py.fmt_opt (api_key (@env_config Demo.world)));
       ("Content-Type", "application/json")].
Proof.
  exact (init_strips_trailing_slashes (@env_config Demo.world)
           "https://ketryx.example/" eq_refl).
Defined.

(** X2 at the demo environment without [KETRYX_URL]. *)
Lemma main_needs_base_url_witness :
  @main Cases.no_url_world "tests.yml" [] = ([], inl AttributeError).
Proof.
  exact (@main_needs_base_url Cases.no_url_world "tests.yml" [] eq_refl eq_refl).
Defined.

(** X3 where [out/b.xml] cannot be opened, and where the service
    answers an upload with an empty object. *)
Lemma upload_failure_modes_witness :
  @upload_artifact Cases.locked_world Demo.reporter "out/b.xml" "application/xml" [] =
    ([], inl (LibraryError "PermissionError" "Permission denied")) /\
  @upload_artifact Cases.terse_world Demo.reporter "out/a.xml" "application/xml" [] =
    ([Post (upload_request Demo.reporter "Bearer s3cret" "out/a.xml" "application/xml")
           (inr (Demo.ok (PDict [])))],
     inl (KeyError "id")).
Proof.
  split.
  - exact (proj1 (@upload_failure_modes Cases.locked_world Demo.reporter
                    "out/b.xml" "application/xml" "Bearer s3cret" [] eq_refl)
             _ eq_refl).
  - exact (proj2 (proj2 (proj2 (@upload_failure_modes Cases.terse_world Demo.reporter
                    "out/a.xml" "application/xml" "Bearer s3cret" [] eq_refl) eq_refl))
             _ [] eq_refl eq_refl eq_refl eq_refl).
Defined.

(** X4 at the accepting service, and at the one that answers a build
    record with a list. *)
Lemma confirmation_after_report_witness :
  @report_and_confirm Demo.world Demo.reporter Demo.tests_build (Some (PList [])) [] =
    ([Post (ReportReq "https://ketryx.example/api/v1/builds" (headers Demo.reporter)
              (@report_data Demo.world Demo.reporter (PStr "ci-build") (PList [])))
           (inr (Demo.ok (PDict [("buildId", PStr "build-7")])));
      Out "Reported ci-build to Ketryx: build-7"],
     inr tt) /\
  snd (@report_and_confirm Cases.terse_world Demo.reporter Demo.tests_build
         (Some (PList [])) []) = inl AttributeError.
Proof.
  split.
  - exact (proj1 (@confirmation_after_report Demo.world Demo.reporter Demo.tests_build
                    (PStr "ci-build") (PList []) _ [] eq_refl eq_refl eq_refl)
             _ eq_refl).
  - refine (f_equal snd
              (proj2 (@confirmation_after_report Cases.terse_world Demo.reporter
                        Demo.tests_build (PStr "ci-build") (PList []) _ []
                        eq_refl eq_refl eq_refl)
                 (PList []) eq_refl _)).
    discriminate.
Defined.

Lemma tests_yml_described :
  Forall2 (@describes)
    [TestResults "ci-build" (Some ["out/*.xml"]) (Some ["out/*.json"])]
    [Demo.tests_build].
Proof.
  repeat constructor.
  now apply describes_test_results
    with (spec := [("junit", str_list ["out/*.xml"]);
                   ("cucumber", str_list ["out/*.json"])]).
Defined.

(** X5 at [tests.yml], whose two patterns both match. *)
Lemma validation_passes_iff_all_match_witness :
  @process_build_config Demo.world "tests.yml" [] = ([], inr (PList [Demo.tests_build])).
Proof.
  refine (proj1 (@validation_passes_iff_all_match Demo.world "tests.yml" _ _ _ []
                   eq_refl eq_refl tests_yml_described) _).
  intros d label p [<- | []] [Hp | [Hp | []]]; injection Hp as <- <-; discriminate.
Defined.

(** X6 at a file that does not exist. *)
Lemma unreadable_config_is_reported_witness :
  @main Demo.world "absent.yml" [] =
    ([Out "Error: No such file or directory"],
     inl (LibraryError "FileNotFoundError" "No such file or directory")).
Proof.
  exact (proj2 (@unreadable_config_is_reported Demo.world "absent.yml" _ Demo.reporter []
                  eq_refl eq_refl eq_refl eq_refl)).
Defined.

(** X7 at [typeless.yml]: the first entry has a pattern without a
    match, the second no type; only the [KeyError] is seen. *)
Lemma entry_without_type_stops_validation_witness :
  @process_build_config Cases.world "typeless.yml" [] = ([], inl (KeyError "type")).
Proof.
  refine (@entry_without_type_stops_validation Cases.world "typeless.yml" _
            [("name", PStr "orphan")] [Demo.broken_tests_build] []
            [TestResults "ci-build" (Some ["out/*.xml"; "gone/*.xml"]) None] []
            eq_refl eq_refl _ eq_refl).
  repeat constructor.
  now apply describes_test_results
    with (spec := [("junit", str_list ["out/*.xml"; "gone/*.xml"])]).
Defined.

(** X8 at [missing.yml]. *)
Lemma missing_files_exit_uncaught_witness :
  @main Demo.world "missing.yml" [] =
    ([Out (nl +++ "Missing files:");
      Out "  - JUnit file not found: gone/*.xml";
      Out "  - SBOM file not found: gone.json"],
     inl (SystemExit 1)).
Proof.
  refine (@missing_files_exit_uncaught Demo.world "missing.yml" _ _ Demo.missing_yml
            Demo.reporter [] eq_refl eq_refl _ _ eq_refl eq_refl).
  - repeat constructor.
    + now apply describes_test_results
        with (spec := [("junit", str_list ["out/*.xml"; "gone/*.xml"])]).
    + apply describes_sbom with (items := [Demo.sbom_item "gone.json" "spdx"]);
        try reflexivity.
      repeat constructor. eexists. repeat split; reflexivity.
  - discriminate.
Defined.

Lemma demo_readable : @all_readable Demo.world.
Proof. intros path. reflexivity. Defined.

Lemma demo_accepts_uploads : @accepts_uploads Demo.world.
Proof.
  intros t url proj auth filename file_path content_type.
  eexists. eexists. eexists. repeat split; reflexivity.
Defined.


(** X9 on a pattern with a match, which is uploaded, and on a pattern
    without one. *)
Lemma sbom_upload_order_witness :
  (exists evs artifacts,
     @upload_sbom Demo.world Demo.reporter (str_list ["sbom/app.json"]) (PStr "spdx") [] =
       ([] ++ evs, inr (PList artifacts)) /\
     @uploaded Demo.reporter [("sbom/app.json", "application/json", "spdx-json")]
       evs artifacts) /\
  @upload_sbom Demo.world Demo.reporter (str_list ["gone.json"]) (PStr "spdx") [] =
    ([], inr (PList [])).
Proof.
  split.
  - exact (proj1 (@sbom_upload_order Demo.world Demo.reporter ["sbom/app.json"]
                    (PStr "spdx") [])
             "Bearer s3cret" demo_readable demo_accepts_uploads eq_refl).
  - exact (proj2 (proj2 (@sbom_upload_order Demo.world Demo.reporter ["gone.json"]
                           (PStr "spdx") []))
             eq_refl).
Defined.

(** X10 at the test-results entry of [tests.yml]: the record posted
    after the three uploads carries the three entries. *)
Lemma test_results_entry_reports_its_uploads_witness :
  let uploaded :=
    PList [artifact_entry (PStr "art-a.xml") "junit-xml";
           artifact_entry (PStr "art-b.xml") "junit-xml";
           artifact_entry (PStr "art-c.json") "cucumber-json"] in
  exists t1 out evs,
    fst (@main_body Demo.world Demo.reporter Demo.tests_build None []) =
    t1 ++ Post (ReportReq "https://ketryx.example/api/v1/builds" (headers Demo.reporter)
                  (@report_data Demo.world Demo.reporter (PStr "ci-build") uploaded))
               out :: evs.
Proof.
  pose proof (@test_results_entry_reports_its_uploads Demo.world Demo.reporter
                "ci-build" (Some ["out/*.xml"]) (Some ["out/*.json"])
                Demo.tests_build None []) as H.
  cbv zeta in H.
  assert (Hd : @describes (TestResults "ci-build" (Some ["out/*.xml"]) (Some ["out/*.json"]))
                 Demo.tests_build).
  { now apply describes_test_results
      with (spec := [("junit", str_list ["out/*.xml"]);
                     ("cucumber", str_list ["out/*.json"])]). }
  specialize (H Hd). destruct H as (_ & evs & Hevs).
  eexists. eexists. exists evs. exact Hevs.
Defined.

(** X11 at the entry without a name: two uploads, then the
    [KeyError]. *)
Lemma entry_without_name_uploads_then_fails_witness :
  @uploaded_files
    (fst (@main_body Cases.world Demo.reporter Cases.nameless_build None [])) =
    ["out/a.xml"; "out/b.xml"] /\
  snd (@main_body Cases.world Demo.reporter Cases.nameless_build None []) =
    inl (KeyError "name").
Proof.
  pose proof (proj2 (@entry_without_name_uploads_then_fails Cases.world Demo.reporter
                       [("type", PStr "test-results");
                        ("artifacts", PDict [("junit", str_list ["out/*.xml"])])]
                       [("junit", str_list ["out/*.xml"])] (Some ["out/*.xml"]) None
                       None [] [] eq_refl eq_refl eq_refl eq_refl eq_refl)) as H.
  split.
  - exact (f_equal (fun r => uploaded_files (fst r)) H).
  - exact (f_equal snd H).
Defined.

(** X12 at the sbom entry of [sbom.yml]: two uploads, and a record that
    carries the second only. *)
Lemma sbom_entry_uploads_all_reports_last_witness :
  exists t1 out more,
    fst (@main_body Demo.world Demo.reporter Demo.sbom_build None []) =
    t1 ++ Post (ReportReq "https://ketryx.example/api/v1/builds" (headers Demo.reporter)
                  (@report_data Demo.world Demo.reporter (PStr "sbom-build")
                     (PList [artifact_entry (PStr "art-lib.json") "spdx-json"])))
               out :: more.
Proof.
  assert (Hd : @describes
                 (Sbom "sbom-build" ([("sbom/app.json", "cyclonedx")] ++
                                     [("sbom/lib.json", "spdx")]))
                 Demo.sbom_build).
  { apply describes_sbom
      with (items := [Demo.sbom_item "sbom/app.json" "cyclonedx";
                      Demo.sbom_item "sbom/lib.json" "spdx"]); try reflexivity.
    repeat constructor; eexists; repeat split; reflexivity. }
  destruct (proj1 (@sbom_entry_uploads_all_reports_last Demo.world Demo.reporter
                     "sbom-build" [("sbom/app.json", "cyclonedx")]
                     ("sbom/lib.json", "spdx") Demo.sbom_build None [] Hd)
              "Bearer s3cret" demo_readable demo_accepts_uploads eq_refl)
    as (evs1 & evs2 & arts1 & arts2 & more & Hrun & _ & _ & Hmore).
  assert (Hbound : snd (@upload_build Demo.world Demo.reporter Demo.sbom_build None []) =
                   inr (Some (PList [artifact_entry (PStr "art-lib.json") "spdx-json"]),
                        true)) by reflexivity.
  rewrite Hrun in Hbound. injection Hbound as ->.
  eexists. eexists. exists more. exact Hmore.
Defined.

(** X13 at the service that refuses build records. *)
Lemma rejected_report_ends_run_witness :
  snd (@main Cases.no_builds_world "tests.yml" []) =
    inl (Exception_ "Failed to report build: internal error") /\
  last (fst (@main Cases.no_builds_world "tests.yml" [])) (Out "") =
    Out "Error: Failed to report build: internal error".
Proof.
  destruct (@rejected_report_ends_run Cases.no_builds_world "tests.yml" [])
    as (evs & Hevs & Hstop).
  vm_compute in Hevs. subst evs.
  destruct (Hstop [_; _; _] _ _ _
              {| status_code := 500; text := "internal error";
                 json := inl (LibraryError "JSONDecodeError" "Expecting value") |}
              [_] eq_refl) as (_ & Hres).
  - discriminate.
  - split; [exact Hres | reflexivity].
Defined.

(** X14 at [tests.yml]. *)
Lemma requests_are_addressed_witness :
  exists evs,
    fst (@main Demo.world "tests.yml" []) = [] ++ evs /\
    Forall (@addressed Demo.world Demo.reporter) evs.
Proof.
  destruct (@requests_are_addressed Demo.world "tests.yml" []) as (evs & Hevs & Hall).
  exists evs. split; [exact Hevs | exact (Hall Demo.reporter eq_refl)].
Defined.

(** ** A run in which everything is accepted *)

Section Accepted.

Context {W : World}.

Hypothesis Hopen : all_readable.
Hypothesis Huploads : accepts_uploads.
Hypothesis Hreports : accepts_reports.

Lemma report_and_confirm_accepted reporter build name uploaded t :
  Py.getitem build "name" = inr (PStr name) ->
  exists resp body,
    status_code resp = 200 /\ json resp = inr (PDict body) /\
    report_and_confirm reporter build (Some uploaded) t =
    (t ++ [Post (ReportReq (base_url reporter +++ "/api/v1/builds") (headers reporter)
                   (report_data reporter (PStr name) uploaded))
                (inr resp);
           Out ("Reported " +++ name +++ " to Ketryx: " +++
                py_str (match Py.dict_get body "buildId" with
                        | Some build_id => build_id
                        | None => PNone
                        end))],
     inr tt).
Proof.
  intros Hname.
  destruct (Hreports t (base_url reporter +++ "/api/v1/builds") (headers reporter)
              (report_data reporter (PStr name) uploaded))
    as (resp & body & Hres & Hok & Hjson).
  exists resp, body. split; [assumption | split; [assumption |]].
  unfold report_and_confirm.
  rewrite (bind_lift_ok _ _ _ _ Hname).
  erewrite bind_lift_ok by reflexivity.
  erewrite bind_ok.
  2:{ rewrite report_build_run. cbv zeta. rewrite Hres.
      apply Z.eqb_eq in Hok. rewrite Hok, Hjson. reflexivity. }
  rewrite (bind_lift_ok _ _ _ _ Hname).
  unfold Py.get.
  destruct (Py.dict_get body "buildId") as [build_id|];
    (erewrite bind_lift_ok by reflexivity);
    unfold print; now rewrite <- app_assoc.
Qed.

Lemma main_body_accepted reporter authorization d v previous t :
  Py.dict_get (headers reporter) "Authorization" = Some authorization ->
  describes d v -> no_sbom d ->
  exists evs bound,
    main_body reporter v previous t = (t ++ evs, inr bound) /\
    entry_done reporter d evs.
Proof.
  intros Hauth Hd Hkind.
  destruct Hd as [name junit cucumber d spec Hname Htype Hspec Hj Hc
                 | name artifacts d items Hname Htype Hspec Hitems
                 | name kind d Hname Htype Hk1 Hk2]; [| contradiction |].
  - pose proof (upload_build_test_results reporter d spec junit cucumber previous t
                  Htype Hspec Hj Hc) as Hup.
    destruct (upload_test_results_accepted reporter authorization
                (opt_list junit) (opt_list cucumber) t Hopen Huploads Hauth)
      as (evs & artifacts & Hrun & Huploaded).
    rewrite (bind_ok _ _ _ _ _ Hrun) in Hup.
    assert (Hgetname : Py.getitem (PDict d) "name" = inr (PStr name))
      by (unfold Py.getitem; now rewrite Hname).
    destruct (report_and_confirm_accepted reporter (PDict d) name (PList artifacts)
                (t ++ evs) Hgetname) as (resp & body & Hok & Hjson & Hrep).
    eexists. exists (Some (PList artifacts)). split.
    + unfold main_body. rewrite (bind_ok _ _ _ _ _ Hup). cbn [fst snd].
      rewrite (bind_ok _ _ _ _ _ Hrep). unfold ret. now rewrite <- app_assoc.
    + now apply done_test_results.
  - exists [Out ("Warning: Unknown build type '" +++ kind +++ "'")], previous. split.
    + unfold main_body.
      rewrite bind_ok with (t' := t ++ [Out ("Warning: Unknown build type '" +++ kind +++ "'")])
                           (a := (previous, false)); [reflexivity |].
      unfold upload_build.
      erewrite bind_lift_ok by (unfold Py.getitem; now rewrite Htype).
      apply String.eqb_neq in Hk1, Hk2. unfold Py.eq_str. now rewrite Hk1, Hk2.
    + constructor.
Qed.

Lemma main_loop_accepted reporter authorization ds items :
  Py.dict_get (headers reporter) "Authorization" = Some authorization ->
  Forall2 describes ds items -> Forall no_sbom ds ->
  forall previous t,
  exists evs bound,
    main_loop reporter items previous t = (t ++ evs, inr bound) /\
    run_done reporter ds evs.
Proof.
  intros Hauth Hall. induction Hall as [|d v ds items Hd _ IH]; intros Hkinds previous t.
  - exists [], previous. unfold main_loop. simpl. unfold ret.
    rewrite app_nil_r. split; [reflexivity | constructor].
  - inversion Hkinds as [|d' ds' Hkind Hrest]; subst.
    destruct (main_body_accepted reporter authorization d v previous t Hauth Hd Hkind)
      as (evs1 & bound1 & Hbody & Hdone).
    destruct (IH Hrest bound1 (t ++ evs1)) as (evs2 & bound2 & Hloop & Hrun).
    exists (evs1 ++ evs2), bound2. split.
    + rewrite (main_loop_cons _ _ _ _ _ _ _ Hbody), Hloop. now rewrite app_assoc.
    + now constructor.
Qed.

(** X17: the whole run when nothing goes wrong.  In a world where every
    file opens and the service accepts every request, with a valid
    environment, a well-formed configuration without sbom entries whose
    patterns all match makes [main] return normally, and its events are
    the processing of the entries one after the other in file order:
    for each test-results entry its junit uploads, then its cucumber
    uploads, then one build record carrying exactly those uploads, then
    the confirmation line; for each entry of an unknown kind the warning
    line.  No entry starts before the one before it is confirmed. *)
Theorem accepted_run_processes_entries_in_order (config_file : string)
    (m : list (string * pyval)) (items : list pyval) (ds : list descriptor)
    (reporter : KetryxReporter) (t : list event) :
  load_yaml config_file = inr (PDict m) ->
  Py.dict_get m "builds" = Some (PList items) ->
  Forall2 describes ds items ->
  Forall no_sbom ds ->
  (forall d label p, In d ds -> In (label, p) (patterns_of d) -> glob p <> []) ->
  required_env env_config = true ->
  KetryxReporter_init env_config = inr reporter ->
  exists evs,
    main config_file t = (t ++ evs, inr tt) /\
    run_done reporter ds evs.
Proof.
  intros Hload Hbuilds Hall Hkinds Hmatch Henv Hinit.
  assert (Hmissing : missing_entries ds = []).
  { unfold missing_entries.
    destruct (filter (fun lp => no_match (snd lp)) (flat_map patterns_of ds))
      as [|[label p] l] eqn:Hf; [reflexivity | exfalso].
    assert (Hin : In (label, p) (filter (fun lp => no_match (snd lp))
                                        (flat_map patterns_of ds)))
      by (rewrite Hf; now left).
    apply filter_In in Hin as [Hin Hno]. apply in_flat_map in Hin as (d & Hd & Hp).
    apply (Hmatch d label p Hd Hp). simpl in Hno. unfold no_match in Hno.
    now destruct (glob p). }
  pose proof (process_build_config_run _ _ _ _ t Hload Hbuilds Hall) as Hloader.
  rewrite Hmissing in Hloader.
  assert (Hauth : Py.dict_get (headers reporter) "Authorization" =
                  Some ("Bearer " +++ Py.fmt_opt (api_key env_config))).
  { unfold KetryxReporter_init in Hinit.
    destruct (ketryx_url env_config); [| discriminate]. now injection Hinit as <-. }
  destruct (main_loop_accepted reporter _ ds items Hauth Hall Hkinds None t)
    as (evs & bound & Hloop & Hrun).
  exists evs. split; [| exact Hrun].
  rewrite (main_env_accepted _ _ Henv), (bind_lift_ok _ _ _ _ Hinit).
  unfold run_builds, try_except.
  rewrite (bind_ok _ _ _ _ _ Hloader).
  rewrite bind_lift_ok with (a := items) by reflexivity.
  now rewrite (bind_ok _ _ _ _ _ Hloop).
Qed.

End Accepted.

Section Payload.

Context {W : World}.

(** X16: the build record in a CI environment.  With
    [GITHUB_SERVER_URL] and [GITHUB_REPOSITORY] set, the payload's
    source URL is the server URL and its single repository URL is
    "<server>/<repository>"; the project, the build name and the
    artifacts are the configured project and the arguments as given, and
    adding [version] or [commitSha] leaves these five fields as they
    are. *)
Theorem report_payload_in_ci (self : KetryxReporter) (build_name artifacts : pyval)
    (server_url repository : string) :
  getenv "GITHUB_SERVER_URL" = Some server_url ->
  getenv "GITHUB_REPOSITORY" = Some repository ->
  let data := report_data self build_name artifacts in
  Py.dict_get data "project" = Some (Py.of_opt (project (config self))) /\
  Py.dict_get data "buildName" = Some build_name /\
  Py.dict_get data "artifacts" = Some artifacts /\
  Py.dict_get data "sourceUrl" = Some (PStr server_url) /\
  Py.dict_get data "repositoryUrls" =
    Some (PList [PStr (server_url +++ "/" +++ repository)]) /\
  map fst (firstn 5 data) =
    ["project"; "buildName"; "artifacts"; "sourceUrl"; "repositoryUrls"].
Proof.
  intros Hserver Hrepo. cbv zeta. unfold report_data, getenv_or_empty.
  rewrite Hserver, Hrepo.
  destruct (Py.truthy_opt (version (config self)));
    [| destruct (Py.truthy_opt (commit_sha (config self)))];
    repeat split; reflexivity.
Qed.

End Payload.

(** X16 inside a GitHub workflow. *)
Lemma report_payload_in_ci_witness :
  Py.dict_get (@report_data Cases.ci_world Demo.reporter (PStr "ci-build") (PList []))
              "repositoryUrls" = Some (PList [PStr "https://github.com/acme/app"]).
Proof.
  exact (proj1 (proj2 (proj2 (proj2 (proj2
           (@report_payload_in_ci Cases.ci_world Demo.reporter (PStr "ci-build") (PList [])
              "https://github.com" "acme/app" eq_refl eq_refl)))))).
Defined.

Lemma unknown_yml_described :
  Forall2 (@describes)
    [OtherKind "docs" "docs";
     TestResults "ci-build" (Some ["out/*.xml"]) (Some ["out/*.json"])]
    [Demo.docs_build; Demo.tests_build].
Proof.
  apply Forall2_cons; [| apply Forall2_cons; [| apply Forall2_nil]].
  - apply describes_other; try reflexivity; discriminate.
  - now apply describes_test_results
      with (spec := [("junit", str_list ["out/*.xml"]);
                     ("cucumber", str_list ["out/*.json"])]).
Defined.

(** X17 at [unknown.yml]: a warning for the [docs] entry, then the
    uploads, the record and the confirmation of the test results. *)
Lemma accepted_run_processes_entries_in_order_witness :
  exists evs,
    @main Demo.world "unknown.yml" [] = ([] ++ evs, inr tt) /\
    @run_done Demo.world Demo.reporter
      [OtherKind "docs" "docs";
       TestResults "ci-build" (Some ["out/*.xml"]) (Some ["out/*.json"])] evs.
Proof.
  refine (@accepted_run_processes_entries_in_order Demo.world _ _ _
            "unknown.yml" _ _ _ Demo.reporter []
            eq_refl eq_refl unknown_yml_described _ _ eq_refl eq_refl).
  - intros path. reflexivity.
  - intros t url proj auth filename file_path content_type.
    eexists. eexists. eexists. repeat split; reflexivity.
  - intros t url hdrs data. eexists. eexists. repeat split; reflexivity.
  - repeat constructor.
  - intros d label p [<- | [<- | []]]; simpl; [intros [] |].
    intros [Hp | [Hp | []]]; injection Hp as <- <-; discriminate.
Defined.
